(** * react-native-paper: BottomNavigation and the accordion colours

    A shallow embedding of [src/components/BottomNavigation.js] (the shift
    calculation, the constructor, the tab press handlers and the parts of
    [render] that decide shifting mode, colours and labels) and of the colour
    derivation [getAccordionColors] exercised by
    [src/components/__tests__/ListAccordion.test.js].

    JavaScript numbers that hold tab indices and item counts are integers of
    small magnitude; they are modelled by [Z], on which [<], [>], [===] and
    [- 1] are exact.  Animated values and alpha levels are rationals ([Q]).
    A property that may be [undefined] is an [option]. *)

From Stdlib Require Import ZArith QArith Lia.
From stdpp Require Import base option list strings relations.

Open Scope Z_scope.

(** ** JavaScript values and exceptions *)

Module JS.

(** The dynamic values a prop can hold where the code inspects its type. *)
Inductive value :=
| Undefined
| Null
| Bool (b : bool)
| Num (n : Z)
| Str (s : string).

(** The [typeof] operator. *)
Definition typeof (v : value) : string :=
  match v with
  | Undefined => "undefined"
  | Null => "object"
  | Bool _ => "boolean"
  | Num _ => "number"
  | Str _ => "string"
  end.

Inductive error :=
| TypeError (msg : string)     (* property access on [undefined] *)
| ColorError (msg : string)    (* thrown by the [color] package *)
| AnimatedError (msg : string). (* thrown by [Animated] *)

Inductive result (A : Type) :=
| OK (a : A)
| Throw (e : error).
Arguments OK {A} a.
Arguments Throw {A} e.

Definition is_OK {A} (r : result A) : Prop := exists a, r = OK a.

Definition rbind {A B} (r : result A) (k : A -> result B) : result B :=
  match r with
  | OK a => k a
  | Throw e => Throw e
  end.

(** ToBoolean, as applied by [c ? a : b], [if (c)] and [a || b]. *)
Definition truthy (v : value) : bool :=
  match v with
  | Undefined | Null => false
  | Bool b => b
  | Num n => negb (n =? 0)
  | Str s => negb (String.eqb s "")
  end.

(** [a || b] on values that are a string or [undefined]. *)
Definition or_else (a b : option string) : option string :=
  match a with
  | Some s => if String.eqb s "" then b else a
  | None => b
  end.

(** Reading a property of [o]: a TypeError when [o] is [undefined]. *)
Definition property_of {A} (o : option A) (name : string) : result A :=
  match o with
  | Some a => OK a
  | None => Throw (TypeError ("undefined is not an object: " +:+ name))
  end.

Fixpoint rmap {A B} (f : A -> result B) (l : list A) : result (list B) :=
  match l with
  | [] => OK []
  | a :: l' =>
      match f a with
      | OK b =>
          match rmap f l' with
          | OK bs => OK (b :: bs)
          | Throw e => Throw e
          end
      | Throw e => Throw e
      end
  end.

(** [arr[i]] for a JavaScript number [i]: [undefined] outside the array. *)
Definition at_index {A} (arr : list A) (i : Z) : option A :=
  if decide (0 <= i) then arr !! Z.to_nat i else None.

End JS.
Import JS.

Notation "x <-? r ;; k" := (rbind r (fun x => k))
(at level 100, r at next level, right associativity).

(** ** The [color] package

    [color] is an npm dependency, not code of this repository: it is taken as
    an interface.  Both operations parse their argument first and may throw
    on what is not a colour. *)

Class ColorLib := {
  (** [color(v).light()] *)
  color_light : option string -> result bool;
  (** [color(v).alpha(a).rgb().string()] *)
  color_alpha : option string -> Q -> result string;
}.


(** [black] and [white] of [../styles/colors], a file of constants that is
    not part of this development: taken as parameters. *)
Class StyleColors := {
  black : string;
  white : string;
}.

(** ** Floating-point expressions

    The geometry of a view is arithmetic on the measured layout, in floating
    point.  Such an expression is kept as the source writes it; what it
    evaluates to is not computed here. *)

Module Float.

Inductive expr :=
| Lit (q : Q)
| Add (a b : expr)
| Sub (a b : expr)
| Mul (a b : expr)
| Div (a b : expr)
| Min (a b : expr).

End Float.

(** ** React Native's [Animated]

    An [Animated.Value] is a mutable cell owned by the component state; what
    [render] puts into a style is either such a cell, an interpolation node
    derived from one, or a plain number. *)

Module Animated.

Inductive ref :=
| Tab (i : nat)      (* this.state.tabs[i] *)
| Shift (i : nat)    (* this.state.shifts[i] *)
| Index              (* this.state.index *)
| Ripple             (* this.state.ripple *)
| Touch.             (* this.state.touch *)

Inductive node :=
| Value (r : ref)
| Interpolate (parent : node) (inputRange outputRange : list Q)
| Number (q : Q).

(** Linear interpolation on one segment, extrapolating on both sides
    (the default [extrapolate: 'extend'] with the default linear easing). *)
Definition segment (x x0 x1 y0 y1 : Q) : Q :=
  if Qeq_bool y0 y1 then y0
  else if Qeq_bool x0 x1 then (if Qle_bool x x0 then y0 else y1)
  else Qred (((x - x0) / (x1 - x0)) * (y1 - y0) + y0).

(** The segment of [inputRange] used for [x]: the first whose right end
    is at least [x], the last one when there is none. *)
Fixpoint interpolate (x : Q) (inputRange outputRange : list Q) : option Q :=
  match inputRange, outputRange with
  | x0 :: ((x1 :: xs) as inputRange'), y0 :: ((y1 :: ys) as outputRange') =>
      match xs with
      | [] => Some (segment x x0 x1 y0 y1)
      | _ => if Qle_bool x x1 then Some (segment x x0 x1 y0 y1)
             else interpolate x inputRange' outputRange'
      end
  | _, _ => None
  end.

End Animated.

(** [value.interpolate({ inputRange, outputRange })] with an [outputRange]
    of colours.  [Animated] checks the two ranges when it creates the node
    and throws on those it rejects.  React Native is not code of this
    repository: the check is taken as an interface. *)
Class AnimatedLib := {
  animated_interpolate : list Z -> list (option string) -> result unit;
}.

(** ** BottomNavigation *)

Module BottomNavigation.

Definition MIN_RIPPLE_SCALE : Q := 1 # 1000.
Definition MIN_SHIFT_AMOUNT : Z := 10.
Definition MIN_TAB_WIDTH : Z := 96.
Definition MAX_TAB_WIDTH : Z := 168.
Definition BAR_HEIGHT : Z := 56.
Definition SMALL_RIPPLE_SIZE : Z := 96.
Definition ACTIVE_LABEL_SIZE : Z := 14.
Definition INACTIVE_LABEL_SIZE : Z := 12.

(** *** Props and state *)

Record Route := {
  key : string;
  title : option string;
  icon : option string;
  color : option string;
}.

Record NavigationState := {
  index : Z;
  routes : list Route;
}.

Record Colors := {
  primary : option string;
  background : option string;
}.

(** A theme as [render] may receive it: [colors] and each colour in it can
    be missing. *)
Record Theme := {
  dark : option bool;
  colors : option Colors;
}.

Record BarStyle := {
  backgroundColor : option string;
}.

(** [onIndexChange] is required and always present.  Of the optional
    callbacks, [onTabPress] is known by its presence only, and [getColor] by
    the function it is (it receives [{ route }], where [route] may be
    [undefined]).  The owner's callbacks are taken to return normally. *)
Record Props := {
  shifting : JS.value;
  navigationState : NavigationState;
  onTabPress : bool;
  getColor : option (option Route -> option string);
  barStyle : option BarStyle;
  theme : Theme;
}.

Record Layout := {
  height : Q;
  width : Q;
  measured : bool;
}.

Module State.
Record t := {
  tabs : list Q;
  shifts : list Q;
  index : Q;
  ripple : Q;
  touch : Q;
  layout : Layout;
  previous : Z;
}.
End State.

(** What the component does to the outside: animations it starts and
    callbacks of its owner it invokes. *)
Inductive event :=
| TimingStart (target : Animated.ref) (toValue : Q) (duration : Z)
| OnIndexChange (i : Z)
| OnTabPress (route : option Route) (focused : bool).

(** *** Methods

    A method runs against the instance [this]: it may read and replace its
    state, invoke callbacks, and throw.  [state] is [None] until the
    constructor assigns it. *)

Record Instance := {
  props : Props;
  state : option State.t;
}.

Record Outcome (A : Type) := {
  returned : result A;
  this_after : Instance;
  calls : list event;
}.
Arguments returned {A} o.
Arguments this_after {A} o.
Arguments calls {A} o.

Definition Method (A : Type) : Type := Instance -> Outcome A.

Definition ret {A} (a : A) : Method A :=
  fun this => {| returned := OK a; this_after := this; calls := [] |}.

Definition throw {A} (e : error) : Method A :=
  fun this => {| returned := Throw e; this_after := this; calls := [] |}.

Definition bind {A B} (m : Method A) (k : A -> Method B) : Method B :=
  fun this =>
    let o := m this in
    match returned o with
    | OK a =>
        let o' := k a (this_after o) in
        {| returned := returned o';
           this_after := this_after o';
           calls := calls o ++ calls o' |}
    | Throw e =>
        {| returned := Throw e; this_after := this_after o; calls := calls o |}
    end.

Notation "x <- m ;; k" := (bind m (fun x => k))
(at level 100, m at next level, right associativity).
Notation "m ;;; k" := (bind m (fun _ => k))
(at level 100, right associativity).

Definition lift {A} (r : result A) : Method A :=
  match r with
  | OK a => ret a
  | Throw e => throw e
  end.

Definition getProps : Method Props :=
  fun this => ret (props this) this.

Definition getState : Method State.t :=
  fun this => lift (property_of (state this) "this.state") this.

Definition putState (st : State.t) : Method unit :=
  fun this =>
    {| returned := OK tt;
       this_after := {| props := props this; state := Some st |};
       calls := [] |}.

Definition call (e : event) : Method unit :=
  fun this => {| returned := OK tt; this_after := this; calls := [e] |}.

Definition when (c : bool) (m : Method unit) : Method unit :=
  if c then m else ret tt.

Fixpoint mapM {A B} (f : A -> Method B) (l : list A) : Method (list B) :=
  match l with
  | [] => ret []
  | a :: l' => b <- f a ;; bs <- mapM f l' ;; ret (b :: bs)
  end.

(** [_calculateShift = (activeIndex, currentIndex, numberOfItems) => ...],
    an instance property like the handlers below, and run against [this]
    like them. *)
Definition _calculateShift (activeIndex currentIndex numberOfItems : Z)
  : Method Z :=
  if decide (activeIndex < currentIndex) then ret (2 * MIN_SHIFT_AMOUNT)
  else if decide (activeIndex > currentIndex) then ret (-2 * MIN_SHIFT_AMOUNT)
  else
    if decide (activeIndex = currentIndex) then
      if decide (currentIndex = 0) then ret MIN_SHIFT_AMOUNT
      else if decide (currentIndex = numberOfItems - 1)
      then ret (- MIN_SHIFT_AMOUNT)
      else ret 0
    else ret 0.

(** [constructor(props)], after [super(props)] has stored the props. *)
Definition constructor : Method unit :=
  props <- getProps ;;
  let routes := routes (navigationState props) in
  let index := index (navigationState props) in
  let tabs :=
    imap (fun i _ => if decide (Z.of_nat i = index) then 1%Q else 0%Q) routes in
  shifts <- mapM (fun i => _calculateShift index (Z.of_nat i)
                             (Z.of_nat (length routes)))
                 (seq 0 (length routes)) ;;
  putState {|
    State.tabs := tabs;
    State.shifts := inject_Z <$> shifts;
    State.index := inject_Z index;
    State.ripple := MIN_RIPPLE_SCALE;
    State.touch := MIN_RIPPLE_SCALE;
    State.layout := {| height := 0; width := 0; measured := false |};
    State.previous := 0;
  |}.

(** [new BottomNavigation(props)]: the constructor run on a fresh instance,
    whose state is not assigned yet. *)
Definition mount (props : Props) : Outcome unit :=
  constructor {| props := props; state := None |}.

(** [_handleTabPress = (index: number) => ...] *)
Definition _handleTabPress (index : Z) : Method unit :=
  props <- getProps ;;
  let navigationState := navigationState props in
  st <- getState ;;
  putState {|
    State.tabs := State.tabs st;
    State.shifts := State.shifts st;
    State.index := State.index st;
    State.ripple := State.ripple st;
    State.touch := MIN_RIPPLE_SCALE;
    State.layout := State.layout st;
    State.previous := State.previous st;
  |} ;;;
  call (TimingStart Animated.Touch 1 300) ;;;
  when (bool_decide (index <> BottomNavigation.index navigationState))
       (call (OnIndexChange index)) ;;;
  when (onTabPress props)
       (let route := at_index (routes navigationState) index in
        call (OnTabPress route
                (bool_decide (BottomNavigation.index navigationState = index)))).

(** [Array.prototype.findIndex]: the first index whose element satisfies
    the predicate, [-1] when there is none. *)
Definition findIndex {A} (P : A -> Prop) `{forall a, Decision (P a)}
  (arr : list A) : Z :=
  match list_find P arr with
  | Some (i, _) => Z.of_nat i
  | None => -1
  end.

(** [_jumpTo = (key: string) => ...] *)
Definition _jumpTo (k : string) : Method unit :=
  props <- getProps ;;
  let index :=
    findIndex (fun route => key route = k) (routes (navigationState props)) in
  call (OnIndexChange index).

(** *** Lifecycle

    [this.setState(patch)] is taken by its effect once React has applied the
    patch: the patched fields replace those of the state.  Of an animation
    the target cell, [toValue] and [duration] are recorded, in the order the
    animations start; the delay before the tab animations and the easing are
    not. *)

(** [componentWillReceiveProps(nextProps)] *)
Definition componentWillReceiveProps (nextProps : Props) : Method unit :=
  props <- getProps ;;
  if decide (index (navigationState nextProps)
             <> index (navigationState props))
  then
    st <- getState ;;
    putState {|
      State.tabs := State.tabs st;
      State.shifts := State.shifts st;
      State.index := State.index st;
      State.ripple := State.ripple st;
      State.touch := State.touch st;
      State.layout := State.layout st;
      State.previous := index (navigationState props);
    |}
  else ret tt.

Fixpoint callAll (es : list event) : Method unit :=
  match es with
  | [] => ret tt
  | e :: es' => call e ;;; callAll es'
  end.

(** [componentDidUpdate(prevProps)], up to the start of the animations. *)
Definition componentDidUpdate (prevProps : Props) : Method unit :=
  props <- getProps ;;
  if decide (index (navigationState prevProps)
             = index (navigationState props))
  then ret tt
  else
    let routes := routes (navigationState props) in
    let index := index (navigationState props) in
    st <- getState ;;
    putState {|
      State.tabs := State.tabs st;
      State.shifts := State.shifts st;
      State.index := State.index st;
      State.ripple := MIN_RIPPLE_SCALE;
      State.touch := State.touch st;
      State.layout := State.layout st;
      State.previous := State.previous st;
    |} ;;;
    let tabs :=
      imap (fun i _ =>
              TimingStart (Animated.Tab i)
                (if decide (Z.of_nat i = index) then 1%Q else 0%Q) 200)
           routes in
    shifts <- mapM (fun i => _calculateShift index (Z.of_nat i)
                               (Z.of_nat (length routes)))
                   (seq 0 (length routes)) ;;
    call (TimingStart Animated.Ripple 1 400) ;;;
    callAll tabs ;;;
    callAll (imap (fun i toValue =>
                     TimingStart (Animated.Shift i) (inject_Z toValue) 200)
                  shifts).

(** The callback [componentDidUpdate] hands to [start]: it runs when the
    animations are over, with the [index] of the props of that update. *)
Definition animationFinished (index : Z) : Method unit :=
  st <- getState ;;
  putState {|
    State.tabs :=
      imap (fun i _ => if decide (Z.of_nat i = index) then 1%Q else 0%Q)
           (State.tabs st);
    State.shifts := State.shifts st;
    State.index := inject_Z index;
    State.ripple := MIN_RIPPLE_SCALE;
    State.touch := State.touch st;
    State.layout := State.layout st;
    State.previous := State.previous st;
  |}.

(** [_handleLayout = e => this.setState({ layout: ... })], for the [height]
    and [width] of [e.nativeEvent.layout]. *)
Definition _handleLayout (height width : Q) : Method unit :=
  st <- getState ;;
  putState {|
    State.tabs := State.tabs st;
    State.shifts := State.shifts st;
    State.index := State.index st;
    State.ripple := State.ripple st;
    State.touch := State.touch st;
    State.layout := {| height := height; width := width; measured := true |};
    State.previous := State.previous st;
  |}.

(** One run of a handler or lifecycle method between two instances. *)
Inductive handled : Instance -> Instance -> Prop :=
| handled_tabPress (i : Z) (this : Instance) :
    handled this (this_after (_handleTabPress i this))
| handled_jumpTo (k : string) (this : Instance) :
    handled this (this_after (_jumpTo k this))
| handled_layout (h w : Q) (this : Instance) :
    handled this (this_after (_handleLayout h w this))
| handled_receiveProps (nextProps : Props) (this : Instance) :
    handled this (this_after (componentWillReceiveProps nextProps this))
| handled_didUpdate (prevProps : Props) (this : Instance) :
    handled this (this_after (componentDidUpdate prevProps this))
| handled_animationFinished (index : Z) (this : Instance) :
    handled this (this_after (animationFinished index this)).

(** The state has one [tabs] cell and one [shifts] cell per route. *)
Definition cells_per_route (this : Instance) : Prop :=
  exists st,
    state this = Some st
    /\ length (State.tabs st) = length (routes (navigationState (props this)))
    /\ length (State.shifts st)
       = length (routes (navigationState (props this))).

(** The [tabs] cells are at rest: 1 for the active tab, 0 for the others. *)
Definition at_rest (this : Instance) : Prop :=
  exists st,
    state this = Some st
    /\ forall (i : nat) (x : Q),
         State.tabs st !! i = Some x ->
         x = if decide (Z.of_nat i = index (navigationState (props this)))
             then 1%Q else 0%Q.

(** *** render

    What [render] returns is recorded as far as the tab bar's modes, colours,
    animated styles and geometry go.  Left out: static style sheets, and the
    elements
    the owner's [renderScene], [renderIcon] and [renderLabel] produce; each
    call of those is recorded by the [focused] and [tintColor] it receives.
    An interpolation of numbers is recorded as the node [render] asks for:
    its ranges are constants, ascending and of two points or more.  The
    interpolation of the route colours, whose ranges depend on the props,
    goes through [animated_interpolate].  The geometry is recorded as
    unevaluated floating-point expressions. *)

Inductive Background :=
| Plain (c : option string)
| Interpolated (inputRange : list Z) (outputRange : list (option string)).

(** The local constants of lines 419-454. *)
Record Palette := {
  approxBackgroundColor : option string;
  barBackgroundColor : Background;
  isDark : bool;
  textColor : string;
  activeColor : option string;
  inactiveColor : string;
  touchColor : string;
}.

(** A wrapper view with its opacity, and the [focused] and [tintColor] its
    icon or label is rendered with. *)
Record Layer := {
  opacity : Animated.node;
  focused : bool;
  tintColor : option string;
}.

Record TabItem := {
  itemKey : string;
  translateX : option Animated.node;
  translateY : Animated.node;
  scale : Animated.node;
  activeIcon : Layer;
  inactiveIcon : option Layer;
  activeLabel : Layer;
  inactiveLabel : option Layer;
}.

Record Scene := {
  sceneKey : string;
  scenePointerEvents : string;
  sceneOpacity : option Animated.node;
  sceneTranslateY : Animated.node;
  sceneFocused : bool;
}.

Record RippleView := {
  rippleTop : Float.expr;
  rippleLeft : Float.expr;
  rippleHeight : Float.expr;
  rippleWidth : Float.expr;
  rippleBorderRadius : Float.expr;
  rippleBackgroundColor : option string;
  rippleTranslateX : option Animated.node;
  rippleScale : Animated.node;
  rippleOpacity : Animated.node;
}.

Record Rendered := {
  pointerEvents : string;
  contentBackgroundColor : option string;
  scenes : list Scene;
  palette : Palette;
  itemsMaxWidth : Z;
  ripple : option RippleView;
  touchRipple : RippleView;
  items : list TabItem;
}.

(** The current value of a cell, [None] for a cell the state does not have. *)
Definition read (st : State.t) (r : Animated.ref) : option Q :=
  match r with
  | Animated.Tab i => State.tabs st !! i
  | Animated.Shift i => State.shifts st !! i
  | Animated.Index => Some (State.index st)
  | Animated.Ripple => Some (State.ripple st)
  | Animated.Touch => Some (State.touch st)
  end.

(** The number a node stands for in a given state. *)
Fixpoint eval (st : State.t) (n : Animated.node) : option Q :=
  match n with
  | Animated.Value r => read st r
  | Animated.Interpolate parent inputRange outputRange =>
      match eval st parent with
      | Some x => Animated.interpolate x inputRange outputRange
      | None => None
      end
  | Animated.Number q => Some q
  end.

(** [this.state.tabs[i]] and [this.state.shifts[i]] as objects: the cell, or
    [undefined]. *)
Definition tab_cell (st : State.t) (i : nat) : option Animated.node :=
  match State.tabs st !! i with
  | Some _ => Some (Animated.Value (Animated.Tab i))
  | None => None
  end.

Definition shift_cell (st : State.t) (i : Z) : option Animated.node :=
  match at_index (State.shifts st) i with
  | Some _ => Some (Animated.Value (Animated.Shift (Z.to_nat i)))
  | None => None
  end.

(** [getColor({ route })], with the default [({ route }) => route.color]
    when the prop is absent. *)
Definition call_getColor (props : Props) (route : option Route)
  : result (option string) :=
  match getColor props with
  | Some f => OK (f route)
  | None => r <-? property_of route "route.color" ;; OK (color r)
  end.

Section Render.
Context {lib : ColorLib} {animated : AnimatedLib} {styles : StyleColors}.

(** Lines 419-422: the local constant [shifting]. *)
Definition render_shifting (props : Props) : JS.value :=
  if decide (typeof (shifting props) = "boolean")
  then shifting props
  else Bool (bool_decide (Z.of_nat (length (routes (navigationState props))) > 3)).

(** Lines 424-454. *)
Definition render_colors (props : Props) : result Palette :=
  let getColor := call_getColor props in
  let theme := theme props in
  let routes := routes (navigationState props) in
  let colors := colors theme in
  let shifting := truthy (render_shifting props) in
  approxBackgroundColor <-?
    match barStyle props ≫= backgroundColor with
    | Some c => OK (Some c)
    | None =>
        if shifting
        then (c <-? property_of colors "colors.primary" ;; OK (primary c))
        else OK (Some (if default false (dark theme) then black else white))
    end ;;
  backgroundColor <-?
    (if shifting
     then
       let inputRange := imap (fun i _ => Z.of_nat i) routes in
       outputRange <-?
         rmap (fun route =>
                 c <-? getColor (Some route) ;;
                 OK (or_else c approxBackgroundColor)) routes ;;
       accepted <-? animated_interpolate inputRange outputRange ;;
       OK (Interpolated inputRange outputRange)
     else OK (Plain approxBackgroundColor)) ;;
  light <-? color_light approxBackgroundColor ;;
  let isDark := negb light in
  let textColor := if isDark then white else black in
  activeColor <-?
    (if shifting then OK (Some textColor)
     else (c <-? property_of colors "colors.primary" ;; OK (primary c))) ;;
  inactiveColor <-?
    (if shifting then OK textColor
     else color_alpha (Some textColor) (1 # 2)) ;;
  touchColor <-? color_alpha (Some textColor) (12 # 100) ;;
  OK {|
    approxBackgroundColor := approxBackgroundColor;
    barBackgroundColor := backgroundColor;
    isDark := isDark;
    textColor := textColor;
    activeColor := activeColor;
    inactiveColor := inactiveColor;
    touchColor := touchColor;
  |}.

(** Lines 473-501: one page of the content area. *)
Definition render_scene (shifting : bool) (nav : NavigationState)
  (st : State.t) (i : nat) (route : Route) : result Scene :=
  let focused := tab_cell st i in
  let opacity := focused in
  translateY <-?
    (if shifting
     then (f <-? property_of focused "focused.interpolate" ;;
           OK (Animated.Interpolate f [0; 1 # 2; 1] [8; 8; 0])%Q)
     else OK (Animated.Number 0)) ;;
  OK {|
    sceneKey := key route;
    scenePointerEvents :=
      if decide (index nav = Z.of_nat i) then "auto" else "none";
    sceneOpacity := opacity;
    sceneTranslateY := translateY;
    sceneFocused := bool_decide (index nav = Z.of_nat i);
  |}.

(** Lines 573-737: one item of the tab bar. *)
Definition render_item (shifting : bool) (colors : Palette)
  (st : State.t) (i : nat) (route : Route) : result TabItem :=
  let shift := shift_cell st (Z.of_nat i) in
  focused <-? property_of (tab_cell st i) "focused.interpolate" ;;
  let scale :=
    (Animated.Interpolate focused [0; 1]
       [if shifting then 1 # 2
        else inject_Z INACTIVE_LABEL_SIZE / inject_Z ACTIVE_LABEL_SIZE; 1])%Q in
  let translateY :=
    (Animated.Interpolate focused [0; 1] [if shifting then 10 else 2; 0])%Q in
  let translateX := if shifting then shift else Some (Animated.Number 0) in
  let inactiveOpacity := (Animated.Interpolate focused [0; 1] [1; 0])%Q in
  let activeIconOpacity :=
    if shifting then (Animated.Interpolate focused [0; 1] [6 # 10; 1])%Q
    else focused in
  let activeLabelOpacity := focused in
  let inactiveIconOpacity := inactiveOpacity in
  let inactiveLabelOpacity := inactiveOpacity in
  OK {|
    itemKey := key route;
    translateX := translateX;
    translateY := translateY;
    scale := scale;
    activeIcon :=
      {| opacity := activeIconOpacity; focused := true;
         tintColor := activeColor colors |};
    inactiveIcon :=
      if shifting then None
      else Some {| opacity := inactiveIconOpacity; focused := false;
                   tintColor := Some (inactiveColor colors) |};
    activeLabel :=
      {| opacity := activeLabelOpacity; focused := true;
         tintColor := activeColor colors |};
    inactiveLabel :=
      if shifting then None
      else Some {| opacity := inactiveLabelOpacity; focused := false;
                   tintColor := Some (inactiveColor colors) |};
  |}.

(** [render()] for given props and state, in the order the source evaluates. *)
Definition render_body (props : Props) (st : State.t) : result Rendered :=
  let getColor := call_getColor props in
  let nav := navigationState props in
  let layout := State.layout st in
  let shifting := truthy (render_shifting props) in
  colors <-? render_colors props ;;
  let maxTabWidth :=
    if decide (Z.of_nat (length (routes nav)) > 3)
    then MIN_TAB_WIDTH else MAX_TAB_WIDTH in
  let tabWidth :=
    Float.Min
      (Float.Div
         (Float.Sub (Float.Lit (width layout))
            (Float.Mul (Float.Lit (inject_Z MIN_SHIFT_AMOUNT)) (Float.Lit 4)))
         (Float.Lit (inject_Z (Z.of_nat (length (routes nav))))))
      (Float.Lit (inject_Z maxTabWidth)) in
  themeColors <-? property_of (BottomNavigation.colors (theme props))
                    "colors.background" ;;
  scenes <-? rmap (fun '(i, route) => render_scene shifting nav st i route)
               (imap pair (routes nav)) ;;
  ripple <-?
    (if shifting
     then
       c <-? getColor (at_index (routes nav) (index nav)) ;;
       OK (Some {|
         rippleTop :=
           Float.Sub (Float.Div (Float.Lit (inject_Z BAR_HEIGHT)) (Float.Lit 2))
             (Float.Div (Float.Lit (width layout)) (Float.Lit 8));
         rippleLeft :=
           Float.Sub
             (Float.Add (Float.Mul (Float.Lit (inject_Z (index nav))) tabWidth)
                (Float.Div tabWidth (Float.Lit 2)))
             (Float.Div (Float.Lit (width layout)) (Float.Lit 8));
         rippleHeight := Float.Div (Float.Lit (width layout)) (Float.Lit 4);
         rippleWidth := Float.Div (Float.Lit (width layout)) (Float.Lit 4);
         rippleBorderRadius :=
           Float.Div (Float.Lit (width layout)) (Float.Lit 2);
         rippleBackgroundColor := c;
         rippleTranslateX := shift_cell st (index nav);
         rippleScale :=
           (Animated.Interpolate (Animated.Value Animated.Ripple)
              [0; 1] [0; 8])%Q;
         rippleOpacity :=
           (Animated.Interpolate (Animated.Value Animated.Ripple)
              [0; MIN_RIPPLE_SCALE; 3 # 10; 1] [0; 0; 1; 1])%Q;
       |})
     else OK None) ;;
  let touchRipple := {|
    rippleTop :=
      Float.Sub (Float.Div (Float.Lit (inject_Z BAR_HEIGHT)) (Float.Lit 2))
        (Float.Div (Float.Lit (inject_Z SMALL_RIPPLE_SIZE)) (Float.Lit 2));
    rippleLeft :=
      Float.Sub
        (Float.Add (Float.Mul (Float.Lit (inject_Z (index nav))) tabWidth)
           (Float.Div tabWidth (Float.Lit 2)))
        (Float.Div (Float.Lit (inject_Z SMALL_RIPPLE_SIZE)) (Float.Lit 2));
    rippleHeight := Float.Lit (inject_Z SMALL_RIPPLE_SIZE);
    rippleWidth := Float.Lit (inject_Z SMALL_RIPPLE_SIZE);
    rippleBorderRadius :=
      Float.Div (Float.Lit (inject_Z SMALL_RIPPLE_SIZE)) (Float.Lit 2);
    rippleBackgroundColor := Some (touchColor colors);
    rippleTranslateX :=
      if shifting then shift_cell st (index nav)
      else Some (Animated.Number 0);
    rippleScale := Animated.Value Animated.Touch;
    rippleOpacity :=
      (Animated.Interpolate (Animated.Value Animated.Touch)
         [0; 1 # 2; 1] [0; 1; 0])%Q;
  |} in
  items <-? rmap (fun '(i, route) => render_item shifting colors st i route)
              (imap pair (routes nav)) ;;
  OK {|
    pointerEvents := if measured (State.layout st) then "auto" else "none";
    contentBackgroundColor := background themeColors;
    scenes := scenes;
    palette := colors;
    itemsMaxWidth := maxTabWidth * Z.of_nat (length (routes nav));
    ripple := ripple;
    touchRipple := touchRipple;
    items := items;
  |}.

(** [render() { ... }] *)
Definition render : Method Rendered :=
  props <- getProps ;;
  st <- getState ;;
  lift (render_body props st).

End Render.

End BottomNavigation.

(** ** The accordion colours *)

Module ListAccordion.

Record Colors := {
  onSurface : option string;
  onSurfaceVariant : option string;
  text : option string;
  primary : option string;
}.

Record Theme := {
  isV3 : bool;
  colors : Colors;
}.

(** The argument object [{ theme, isExpanded }]; [isExpanded] may be
    omitted. *)
Record Args := {
  theme : Theme;
  isExpanded : JS.value;
}.

Record AccordionColors := {
  titleColor : option string;
  descriptionColor : option string;
  titleTextColor : option string;
  rippleColor : string;
}.

(** Modelled from the spec: [getAccordionColors] of
    [src/components/List/utils], which the tests import and whose source is
    not available.  The spec describes it as a pure function from
    [(theme, expanded-flag)] to the record of display colours (title,
    description, title-text, ripple) that selects between two theme-version
    colour formulas; the formulas are the ones the tests of
    [ListAccordion.test.js] expect. *)
Definition getAccordionColors {lib : ColorLib} (args : Args)
  : result AccordionColors :=
  let theme := theme args in
  titleColor <-?
    (if isV3 theme then OK (onSurface (colors theme))
     else (c <-? color_alpha (text (colors theme)) (87 # 100) ;; OK (Some c))) ;;
  descriptionColor <-?
    (if isV3 theme then OK (onSurfaceVariant (colors theme))
     else (c <-? color_alpha (text (colors theme)) (54 # 100) ;; OK (Some c))) ;;
  let titleTextColor :=
    if truthy (isExpanded args) then primary (colors theme) else titleColor in
  rippleColor <-? color_alpha titleTextColor (12 # 100) ;;
  OK {|
    titleColor := titleColor;
    descriptionColor := descriptionColor;
    titleTextColor := titleTextColor;
    rippleColor := rippleColor;
  |}.

End ListAccordion.

(** ** Sample data

    The part of the [color] package, of [Animated] and of
    [../styles/colors] that the default themes touch (alpha levels other
    than the four the components use are not told apart), three and four tab
    navigation states, and themes with and without their colours. *)

Module Sample.

Definition rgb_of (v : option string) : result string :=
  match v with
  | None => OK "0, 0, 0"
  | Some s =>
      if String.eqb s "#000000" then OK "0, 0, 0"
      else if String.eqb s "rgba(0, 0, 0, 0.87)" then OK "0, 0, 0"
      else if String.eqb s "#ffffff" then OK "255, 255, 255"
      else if String.eqb s "#6200ee" then OK "98, 0, 238"
      else if String.eqb s "rgba(28, 27, 31, 1)" then OK "28, 27, 31"
      else if String.eqb s "rgba(103, 80, 164, 1)" then OK "103, 80, 164"
      else Throw (ColorError ("Unable to parse color from string: " +:+ s))
  end.

Definition alpha_of (a : Q) : string :=
  if Qeq_bool a (12 # 100) then "0.12"
  else if Qeq_bool a (1 # 2) then "0.5"
  else if Qeq_bool a (54 # 100) then "0.54"
  else if Qeq_bool a (87 # 100) then "0.87"
  else "1".

#[export] Instance lib : ColorLib := {|
  color_light v :=
    c <-? rgb_of v ;; OK (String.eqb c "255, 255, 255");
  color_alpha v a :=
    c <-? rgb_of v ;; OK ("rgba(" +:+ c +:+ ", " +:+ alpha_of a +:+ ")");
|}.

(** [Animated] on a range of colours: at least two; after a first colour
    every entry has to be a colour. *)
#[export] Instance animated : AnimatedLib := {|
  animated_interpolate inputRange outputRange :=
    if decide (length outputRange < 2)%nat
    then Throw (AnimatedError "outputRange must have at least 2 elements")
    else
      match outputRange with
      | Some _ :: _ =>
          if forallb (fun c : option string =>
                        match c with Some _ => true | None => false end)
               outputRange
          then OK tt
          else Throw (TypeError "undefined is not an object: input.replace")
      | _ => OK tt
      end;
|}.

#[export] Instance styles : StyleColors := {|
  black := "#000000";
  white := "#ffffff";
|}.

Definition route (k : string) : BottomNavigation.Route :=
  {| BottomNavigation.key := k;
     BottomNavigation.title := Some k;
     BottomNavigation.icon := None;
     BottomNavigation.color := None |}.

Definition three : list BottomNavigation.Route :=
  [route "music"; route "albums"; route "recents"].

Definition four : list BottomNavigation.Route :=
  three ++ [route "purchased"].

Definition paper : BottomNavigation.Theme :=
  {| BottomNavigation.dark := Some false;
     BottomNavigation.colors :=
       Some {| BottomNavigation.primary := Some "#6200ee";
               BottomNavigation.background := Some "#ffffff" |} |}.



Definition props_of (shifting : JS.value) (index : Z)
  (routes : list BottomNavigation.Route) (onTabPress : bool)
  (theme : BottomNavigation.Theme) : BottomNavigation.Props :=
  {| BottomNavigation.shifting := shifting;
     BottomNavigation.navigationState :=
       {| BottomNavigation.index := index; BottomNavigation.routes := routes |};
     BottomNavigation.onTabPress := onTabPress;
     BottomNavigation.getColor := None;
     BottomNavigation.barStyle := None;
     BottomNavigation.theme := theme |}.

(** A mounted bottom navigation with three tabs, the second one active. *)
Definition mounted : BottomNavigation.Instance :=
  BottomNavigation.this_after
    (BottomNavigation.mount (props_of Undefined 1 three true paper)).

(** The same bar in shifting mode. *)
Definition shifted : BottomNavigation.Instance :=
  BottomNavigation.this_after
    (BottomNavigation.mount (props_of (Bool true) 1 three false paper)).

(** The state the constructor assigns to both. *)
Definition mounted_state : BottomNavigation.State.t :=
  {| BottomNavigation.State.tabs := [0; 1; 0]%Q;
     BottomNavigation.State.shifts := [inject_Z (-20); inject_Z 0; inject_Z 20];
     BottomNavigation.State.index := inject_Z 1;
     BottomNavigation.State.ripple := BottomNavigation.MIN_RIPPLE_SCALE;
     BottomNavigation.State.touch := BottomNavigation.MIN_RIPPLE_SCALE;
     BottomNavigation.State.layout :=
       {| BottomNavigation.height := 0;
          BottomNavigation.width := 0;
          BottomNavigation.measured := false |};
     BottomNavigation.State.previous := 0 |}.

(** The colours of the default version-3 and version-2 themes that the
    accordion reads. *)
Definition v3 : ListAccordion.Theme :=
  {| ListAccordion.isV3 := true;
     ListAccordion.colors :=
       {| ListAccordion.onSurface := Some "rgba(28, 27, 31, 1)";
          ListAccordion.onSurfaceVariant := Some "rgba(73, 69, 79, 1)";
          ListAccordion.text := None;
          ListAccordion.primary := Some "rgba(103, 80, 164, 1)" |} |}.

Definition v2 : ListAccordion.Theme :=
  {| ListAccordion.isV3 := false;
     ListAccordion.colors :=
       {| ListAccordion.onSurface := None;
          ListAccordion.onSurfaceVariant := None;
          ListAccordion.text := Some "#000000";
          ListAccordion.primary := Some "#6200ee" |} |}.

End Sample.

(** * Properties of BottomNavigation *)

Module BottomNavigationFacts.
Import BottomNavigation.

Lemma calculateShift_run (a c n : Z) :
  exists v, forall this : Instance,
    _calculateShift a c n this
    = {| returned := OK v; this_after := this; calls := [] |}.
Proof.
  unfold _calculateShift.
  repeat case_decide; eexists; intros this; reflexivity.
Qed.

(** C1, as the code has it.  [_calculateShift] compares [activeIndex] with
    [currentIndex]: below it the result is [2 * MIN_SHIFT_AMOUNT] (20), above
    it [-2 * MIN_SHIFT_AMOUNT] (-20); when they are equal the result is
    [MIN_SHIFT_AMOUNT] (10) for [currentIndex = 0], [- MIN_SHIFT_AMOUNT] (-10)
    for a [currentIndex] that is [numberOfItems - 1] and not [0], and [0]
    strictly in the middle. *)
Theorem calculateShift_cases (this : Instance) (a c n : Z) :
  (a < c -> returned (_calculateShift a c n this) = OK (2 * MIN_SHIFT_AMOUNT))
  /\ (a > c ->
      returned (_calculateShift a c n this) = OK (-2 * MIN_SHIFT_AMOUNT))
  /\ (a = c -> c = 0 ->
      returned (_calculateShift a c n this) = OK MIN_SHIFT_AMOUNT)
  /\ (a = c -> c <> 0 -> c = n - 1 ->
      returned (_calculateShift a c n this) = OK (- MIN_SHIFT_AMOUNT))
  /\ (a = c -> 0 < c < n - 1 ->
      returned (_calculateShift a c n this) = OK 0).
Proof.
  unfold _calculateShift.
  repeat split; intros; repeat case_decide; simpl; try reflexivity; lia.
Qed.

Lemma calculateShift_cases_witness :
  returned (_calculateShift 0 1 3 Sample.mounted) = OK 20
  /\ returned (_calculateShift 2 1 3 Sample.mounted) = OK (-20)
  /\ returned (_calculateShift 0 0 3 Sample.mounted) = OK 10
  /\ returned (_calculateShift 2 2 3 Sample.mounted) = OK (-10)
  /\ returned (_calculateShift 1 1 3 Sample.mounted) = OK 0.
Proof.
  split; [apply (calculateShift_cases Sample.mounted 0 1 3); lia |].
  split; [apply (calculateShift_cases Sample.mounted 2 1 3); lia |].
  split; [apply (calculateShift_cases Sample.mounted 0 0 3); lia |].
  split; [apply (calculateShift_cases Sample.mounted 2 2 3); lia |].
  apply (calculateShift_cases Sample.mounted 1 1 3); lia.
Defined.

(** C1 as stated fails for a bar with a single tab: index [0] is both the
    first and the last ([numberOfItems - 1]) tab, the test for the first tab
    comes first, and the result is 10, not -10. *)
Lemma calculateShift_single_tab :
  ~ (forall (this : Instance) (a c n : Z),
        (a < c ->
         returned (_calculateShift a c n this) = OK (2 * MIN_SHIFT_AMOUNT))
        /\ (a > c ->
            returned (_calculateShift a c n this) = OK (-2 * MIN_SHIFT_AMOUNT))
        /\ (a = c -> c = 0 ->
            returned (_calculateShift a c n this) = OK MIN_SHIFT_AMOUNT)
        /\ (a = c -> c = n - 1 ->
            returned (_calculateShift a c n this) = OK (- MIN_SHIFT_AMOUNT))
        /\ (a = c -> 0 < c < n - 1 ->
            returned (_calculateShift a c n this) = OK 0)).
Proof.
  intros H.
  destruct (H Sample.mounted 0 0 1) as (_ & _ & _ & Hlast & _).
  specialize (Hlast eq_refl eq_refl).
  vm_compute in Hlast. discriminate Hlast.
Qed.

(** C2.  Whatever the three arguments, [_calculateShift] returns one of
    -20, -10, 0, 10 and 20. *)
Theorem calculateShift_range (this : Instance) (a c n : Z) :
  exists v, returned (_calculateShift a c n this) = OK v
            /\ v ∈ [-20; -10; 0; 10; 20].
Proof.
  unfold _calculateShift, MIN_SHIFT_AMOUNT.
  repeat case_decide; eexists; (split; [reflexivity | repeat constructor]).
Qed.

(** *** Shifting mode *)

(** C8.  A [shifting] prop that is not a boolean leaves the mode to the
    number of routes: shifting exactly when there are more than three.  A
    boolean [shifting] prop is the mode, whatever the number of routes. *)
Theorem shifting_default (props : Props) :
  (typeof (shifting props) <> "boolean" ->
   (truthy (render_shifting props) = true
    <-> (length (routes (navigationState props)) > 3)%nat))
  /\ (forall b : bool,
        shifting props = Bool b -> render_shifting props = Bool b).
Proof.
  unfold render_shifting. split.
  - intros Hty. rewrite decide_False by assumption. simpl.
    rewrite bool_decide_eq_true. lia.
  - intros b Hb. rewrite Hb. reflexivity.
Qed.

Lemma shifting_default_witness :
  (truthy (render_shifting (Sample.props_of Undefined 0 Sample.four false
                              Sample.paper)) = true
   <-> (length Sample.four > 3)%nat)
  /\ render_shifting (Sample.props_of (Bool false) 0 Sample.four false
                        Sample.paper) = Bool false.
Proof.
  split.
  - apply (shifting_default
             (Sample.props_of Undefined 0 Sample.four false Sample.paper)).
    simpl. discriminate.
  - apply (shifting_default
             (Sample.props_of (Bool false) 0 Sample.four false Sample.paper)).
    reflexivity.
Defined.

(** *** Tab presses *)

(** Membership in an explicit list of calls, case by case. *)
Ltac elem_cases :=
  rewrite ?elem_of_cons, ?elem_of_nil; unfold not;
  try split; intros;
  repeat match goal with
         | H : _ \/ _ |- _ => destruct H
         | H : _ /\ _ |- _ => destruct H
         | H : False |- _ => destruct H
         | H : OnIndexChange _ = OnIndexChange _ |- _ => injection H as ->
         | H : OnTabPress _ _ = OnTabPress _ _ |- _ => injection H as -> ->
         | H : _ = _ :> event |- _ => discriminate H
         end;
  subst; tauto.

Lemma handleTabPress_run (this : Instance) (st : State.t) (i : Z) :
  state this = Some st ->
  let nav := navigationState (props this) in
  returned (_handleTabPress i this) = OK tt
  /\ calls (_handleTabPress i this)
     = TimingStart Animated.Touch 1 300
       :: (if decide (i <> index nav) then [OnIndexChange i] else [])
       ++ (if onTabPress (props this)
           then [OnTabPress (at_index (routes nav) i)
                   (bool_decide (index nav = i))]
           else []).
Proof.
  intros Hst. unfold _handleTabPress, bind, getProps, getState. simpl.
  rewrite Hst. simpl.
  destruct (decide (i <> index (navigationState (props this)))) as [Hne | He].
  - rewrite bool_decide_eq_true_2 by assumption.
    destruct (onTabPress (props this)); simpl; split; reflexivity.
  - rewrite bool_decide_eq_false_2 by assumption.
    destruct (onTabPress (props this)); simpl; split; reflexivity.
Qed.

(** C9.  On a mounted component, a press on tab [i] returns normally and
    calls [onIndexChange] with [i], and only with [i], exactly when [i]
    differs from [navigationState.index]; when [onTabPress] is provided it is
    called on every press, with the route at index [i] and with [focused]
    equal to [navigationState.index === i], and with nothing else.  Pressing
    the active tab therefore reports [focused] true and changes no index. *)
Theorem handleTabPress_calls (this : Instance) (st : State.t) (i : Z) :
  state this = Some st ->
  let nav := navigationState (props this) in
  let o := _handleTabPress i this in
  returned o = OK tt
  /\ (forall j, OnIndexChange j ∈ calls o <-> j = i /\ i <> index nav)
  /\ (onTabPress (props this) = true ->
      forall r f, OnTabPress r f ∈ calls o
                  <-> r = at_index (routes nav) i
                      /\ f = bool_decide (index nav = i))
  /\ (i = index nav ->
      (forall j, OnIndexChange j ∉ calls o)
      /\ (onTabPress (props this) = true ->
          OnTabPress (at_index (routes nav) i) true ∈ calls o)).
Proof.
  intros Hst nav o.
  destruct (handleTabPress_run this st i Hst) as [Hret Hcalls].
  fold nav in Hcalls. fold o in Hret, Hcalls.
  split; [exact Hret |].
  rewrite Hcalls. clear Hcalls Hret.
  split; [| split].
  - intros j. destruct (decide (i <> index nav));
      destruct (onTabPress (props this)); simpl; elem_cases.
  - intros Hcb r f. rewrite Hcb.
    destruct (decide (i <> index nav)); simpl; elem_cases.
  - intros Heq. rewrite decide_False by tauto. split.
    + intros j. destruct (onTabPress (props this)); simpl; elem_cases.
    + intros Hcb. rewrite Hcb.
      rewrite bool_decide_eq_true_2 by congruence.
      simpl. elem_cases.
Qed.

Lemma handleTabPress_calls_witness :
  state Sample.mounted = Some Sample.mounted_state
  /\ returned (_handleTabPress 1 Sample.mounted) = OK tt
  /\ (forall j, OnIndexChange j ∉ calls (_handleTabPress 1 Sample.mounted))
  /\ OnTabPress (Some (Sample.route "albums")) true
       ∈ calls (_handleTabPress 1 Sample.mounted).
Proof.
  assert (state Sample.mounted = Some Sample.mounted_state) as Hst
    by reflexivity.
  split; [exact Hst |].
  destruct (handleTabPress_calls Sample.mounted Sample.mounted_state 1 Hst)
    as (Hret & _ & _ & Hactive).
  split; [exact Hret |].
  destruct (Hactive eq_refl) as [Hnone Hfocused].
  split; [exact Hnone | exact (Hfocused eq_refl)].
Defined.

(** *** Jumping to a route *)

(** C10.  [_jumpTo(key)] always calls [onIndexChange], once: with [-1] when
    no route has that key, and with the index of the first route that has it
    otherwise. *)
Theorem jumpTo_calls (this : Instance) (k : string) :
  let rs := routes (navigationState (props this)) in
  returned (_jumpTo k this) = OK tt
  /\ this_after (_jumpTo k this) = this
  /\ (k ∉ key <$> rs -> calls (_jumpTo k this) = [OnIndexChange (-1)])
  /\ (forall (i : nat) (r : Route),
        rs !! i = Some r -> key r = k ->
        (forall (j : nat) (r' : Route),
            rs !! j = Some r' -> (j < i)%nat -> key r' <> k) ->
        calls (_jumpTo k this) = [OnIndexChange (Z.of_nat i)]).
Proof.
  intros rs. unfold _jumpTo, bind, getProps, call, findIndex. simpl.
  fold rs.
  split; [reflexivity |]. split; [reflexivity |]. split.
  - intros Hnot.
    assert (list_find (fun route => key route = k) rs = None) as ->;
      [| reflexivity].
    apply list_find_None, Forall_forall. intros r Hr Hk.
    apply Hnot. apply list_elem_of_fmap. exists r. split; [symmetry |]; done.
  - intros i r Hi Hk Hfirst.
    assert (list_find (fun route => key route = k) rs = Some (i, r)) as ->;
      [| reflexivity].
    apply list_find_Some. split; [exact Hi |]. split; [exact Hk |].
    intros j y Hj Hlt. exact (Hfirst j y Hj Hlt).
Qed.

Lemma jumpTo_calls_witness :
  calls (_jumpTo "videos" Sample.mounted) = [OnIndexChange (-1)]
  /\ calls (_jumpTo "recents" Sample.mounted) = [OnIndexChange 2].
Proof.
  split.
  - destruct (jumpTo_calls Sample.mounted "videos") as (_ & _ & Hmiss & _).
    apply Hmiss.
    change (routes (navigationState (props Sample.mounted)))
      with Sample.three.
    unfold Sample.three. rewrite !fmap_cons, fmap_nil.
    rewrite !elem_of_cons, elem_of_nil.
    intros [H | [H | [H | H]]]; try discriminate H; exact H.
  - destruct (jumpTo_calls Sample.mounted "recents") as (_ & _ & _ & Hhit).
    apply (Hhit 2%nat (Sample.route "recents")).
    + reflexivity.
    + reflexivity.
    + intros j r' Hj Hlt.
      destruct j as [| [| j]]; [| | lia];
        vm_compute in Hj; injection Hj as <-; discriminate.
Defined.

(** *** The mounted component *)

Lemma rmap_lookup {A B} (f : A -> result B) (l : list A) (bs : list B)
  (i : nat) (a : A) :
  rmap f l = OK bs -> l !! i = Some a ->
  exists b, f a = OK b /\ bs !! i = Some b.
Proof.
  revert bs i. induction l as [| x l IH]; intros bs i Hmap Hi.
  - discriminate Hi.
  - simpl in Hmap.
    destruct (f x) as [b |] eqn:Hfx; [| discriminate Hmap].
    destruct (rmap f l) as [bs' |] eqn:Hl; [| discriminate Hmap].
    injection Hmap as <-.
    destruct i as [| i]; simpl in Hi.
    + injection Hi as <-. exists b. split; [exact Hfx | reflexivity].
    + exact (IH bs' i eq_refl Hi).
Qed.

Lemma rmap_lookup_inv {A B} (f : A -> result B) (l : list A) (bs : list B)
  (i : nat) (b : B) :
  rmap f l = OK bs -> bs !! i = Some b ->
  exists a, l !! i = Some a /\ f a = OK b.
Proof.
  revert bs i. induction l as [| x l IH]; intros bs i Hmap Hi.
  - injection Hmap as <-. discriminate Hi.
  - simpl in Hmap.
    destruct (f x) as [y |] eqn:Hfx; [| discriminate Hmap].
    destruct (rmap f l) as [bs' |] eqn:Hl; [| discriminate Hmap].
    injection Hmap as <-.
    destruct i as [| i]; simpl in Hi.
    + injection Hi as <-. exists x. split; [reflexivity | exact Hfx].
    + exact (IH bs' i eq_refl Hi).
Qed.

Lemma rmap_length {A B} (f : A -> result B) (l : list A) (bs : list B) :
  rmap f l = OK bs -> length bs = length l.
Proof.
  revert bs. induction l as [| x l IH]; intros bs Hmap.
  - injection Hmap as <-. reflexivity.
  - simpl in Hmap.
    destruct (f x) as [y |]; [| discriminate Hmap].
    destruct (rmap f l) as [bs' |]; [| discriminate Hmap].
    injection Hmap as <-. simpl. f_equal. exact (IH bs' eq_refl).
Qed.

Lemma rmap_total {A B} (f : A -> result B) (l : list A) :
  (forall a, a ∈ l -> is_OK (f a)) -> is_OK (rmap f l).
Proof.
  induction l as [| x l IH]; intros Hf.
  - exists []. reflexivity.
  - destruct (Hf x) as [b Hb]; [left |].
    destruct IH as [bs Hbs]; [intros a Ha; apply Hf; right; exact Ha |].
    exists (b :: bs). simpl. rewrite Hb, Hbs. reflexivity.
Qed.

Lemma mapM_calculateShift (active n : Z) (l : list nat) (this : Instance) :
  exists vs,
    mapM (fun i => _calculateShift active (Z.of_nat i) n) l this
    = {| returned := OK vs; this_after := this; calls := [] |}
    /\ length vs = length l.
Proof.
  induction l as [| i l [vs [IH Hlen]]].
  - exists []. split; reflexivity.
  - destruct (calculateShift_run active (Z.of_nat i) n) as [v Hv].
    specialize (Hv this). exists (v :: vs). split; [| simpl; congruence].
    simpl. unfold bind. rewrite Hv. simpl. rewrite IH. reflexivity.
Qed.

(** The constructor returns normally, calls nothing, and assigns a state
    with one cell per route in [tabs] and in [shifts]: 1 for the active tab
    and 0 for the others. *)
Lemma mount_state (props : Props) :
  let rs := routes (navigationState props) in
  exists st,
    mount props
    = {| returned := OK tt;
         this_after := {| props := props; state := Some st |};
         calls := [] |}
    /\ State.tabs st
       = imap (fun i _ =>
                 if decide (Z.of_nat i = index (navigationState props))
                 then 1%Q else 0%Q) rs
    /\ length (State.shifts st) = length rs.
Proof.
  intros rs. unfold mount, constructor.
  set (this := {| props := props; state := None |}).
  destruct (mapM_calculateShift (index (navigationState props))
              (Z.of_nat (length rs)) (seq 0 (length rs)) this)
    as [vs [Hvs Hlen]].
  eexists. split; [| split].
  - unfold bind, getProps. simpl. fold rs. fold this.
    rewrite Hvs. simpl. reflexivity.
  - reflexivity.
  - simpl. rewrite length_fmap, Hlen, length_seq. reflexivity.
Qed.

(** *** What render returns *)

Section Rendering.
Context {lib : ColorLib} {animated : AnimatedLib} {styles : StyleColors}.

Lemma render_mounted (props : Props) (st : State.t) :
  returned (render {| props := props; state := Some st |})
  = render_body props st.
Proof.
  unfold render, bind, getProps, getState. simpl.
  destruct (render_body props st); reflexivity.
Qed.

Lemma render_scene_ok (shifting : bool) (nav : NavigationState)
  (st : State.t) (i : nat) (route : Route) (x : Q) :
  State.tabs st !! i = Some x ->
  is_OK (render_scene shifting nav st i route).
Proof.
  intros Hx. unfold render_scene, tab_cell. rewrite Hx.
  destruct shifting; simpl; eexists; reflexivity.
Qed.

Lemma render_item_ok (shifting : bool) (colors : Palette)
  (st : State.t) (i : nat) (route : Route) (x : Q) :
  State.tabs st !! i = Some x ->
  is_OK (render_item shifting colors st i route).
Proof.
  intros Hx. unfold render_item, tab_cell. rewrite Hx.
  simpl. eexists. reflexivity.
Qed.


Lemma call_getColor_route (props : Props) (route : Route) :
  is_OK (call_getColor props (Some route)).
Proof.
  unfold call_getColor. destruct (getColor props); simpl; eexists; reflexivity.
Qed.

(** Once the colours are derived, [render] needs the [colors] object, a
    [tabs] cell per route and, for the ripple of shifting mode, a route to
    ask [getColor] about. *)
Lemma render_body_returns (props : Props) (st : State.t) (p : Palette)
  (cs : Colors) :
  let nav := navigationState props in
  let shifting := truthy (render_shifting props) in
  render_colors props = OK p ->
  colors (theme props) = Some cs ->
  (length (routes nav) <= length (State.tabs st))%nat ->
  (shifting = true -> getColor props = None ->
   is_Some (at_index (routes nav) (index nav))) ->
  exists r,
    render_body props st = OK r
    /\ palette r = p
    /\ contentBackgroundColor r = background cs
    /\ rmap (fun '(i, route) => render_item shifting p st i route)
         (imap pair (routes nav)) = OK (items r).
Proof.
  intros nav shifting Hp Hcs Hlen Hindex.
  unfold render_body. fold nav shifting. rewrite Hp, Hcs. simpl.
  assert (forall i route,
             (i, route) ∈ imap pair (routes nav) ->
             exists x, State.tabs st !! i = Some x) as Hcells.
  { intros i route Hin.
    apply elem_of_lookup_imap in Hin as (j & y & Hpair & Hj).
    injection Hpair as -> ->.
    apply lookup_lt_is_Some_2. apply lookup_lt_Some in Hj. lia. }
  destruct (rmap_total
              (fun '(i, route) => render_scene shifting nav st i route)
              (imap pair (routes nav))) as [scs ->].
  { intros [i route] Hin. destruct (Hcells i route Hin) as [x Hx].
    exact (render_scene_ok _ _ _ _ _ x Hx). }
  simpl.
  set (rip := if shifting then _ else _).
  assert (is_OK rip) as [rp ->].
  { subst rip. destruct shifting; [| eexists; reflexivity].
    unfold call_getColor.
    destruct (getColor props) as [f |]; simpl; [eexists; reflexivity |].
    destruct (Hindex eq_refl eq_refl) as [route ->]. simpl.
    eexists. reflexivity. }
  simpl.
  destruct (rmap_total
              (fun '(i, route) => render_item shifting p st i route)
              (imap pair (routes nav))) as [its Hits].
  { intros [i route] Hin. destruct (Hcells i route Hin) as [x Hx].
    exact (render_item_ok _ _ _ _ _ x Hx). }
  rewrite Hits. simpl. eexists. split; [reflexivity |]. simpl.
  split; [reflexivity |]. split; reflexivity.
Qed.

(** *** Labels in shifting mode *)

(** C6, as the code has it.  In shifting mode, on a component whose state
    has a [tabs] cell per route, [render] returns once the colours are
    derived, the theme has its [colors] object and the ripple has a route;
    it then returns one item per route, and the item at position [i] has no
    inactive label, has the [tabs] cell of [i] as the opacity of its one
    label, and has as the label's scale the interpolation of that cell from
    [0.5] to [1]: 0.5 when the cell is at 0 and 1 when it is at 1.  The
    cells are at rest, 1 for the active tab and 0 for the others, in the
    state the constructor assigns and in the state the callback at the end
    of the update animations leaves. *)
Theorem shifting_labels :
  (forall (this : Instance) (st : State.t),
      let nav := navigationState (props this) in
      state this = Some st ->
      truthy (render_shifting (props this)) = true ->
      is_OK (render_colors (props this)) ->
      is_Some (colors (theme (props this))) ->
      (length (routes nav) <= length (State.tabs st))%nat ->
      (getColor (props this) = None ->
       is_Some (at_index (routes nav) (index nav))) ->
      exists r,
        returned (render this) = OK r
        /\ length (items r) = length (routes nav)
        /\ forall (i : nat) (item : TabItem),
             items r !! i = Some item ->
             inactiveLabel item = None
             /\ opacity (activeLabel item) = Animated.Value (Animated.Tab i)
             /\ eval st (opacity (activeLabel item)) = State.tabs st !! i
             /\ scale item
                = Animated.Interpolate (Animated.Value (Animated.Tab i))
                    [0; 1]%Q [1 # 2; 1]%Q
             /\ (State.tabs st !! i = Some 0%Q ->
                 eval st (scale item) = Some (1 # 2)%Q)
             /\ (State.tabs st !! i = Some 1%Q ->
                 eval st (scale item) = Some 1%Q))
  /\ (forall props : Props, at_rest (this_after (mount props)))
  /\ (forall (this : Instance) (st : State.t),
         state this = Some st ->
         at_rest (this_after
                    (animationFinished
                       (index (navigationState (props this))) this))).
Proof.
  split; [| split].
  - intros this st nav Hst Hshifting [p Hp] [cs Hcs] Hlen Hindex.
    destruct (render_body_returns (props this) st p cs Hp Hcs Hlen)
      as (r & Hr & _ & _ & Hitems).
    { intros _. exact Hindex. }
    exists r. split.
    { destruct this as [props0 state0]. simpl in Hst. subst state0.
      rewrite render_mounted. exact Hr. }
    fold nav in Hitems. split.
    { rewrite (rmap_length _ _ _ Hitems), length_imap. reflexivity. }
    intros i item Hi.
    destruct (rmap_lookup_inv _ _ _ i item Hitems Hi)
      as ([j route] & Hj & Hitem).
    rewrite list_lookup_imap in Hj.
    destruct (routes nav !! i) as [route' |]; [| discriminate Hj].
    injection Hj as <- <-.
    rewrite Hshifting in Hitem. unfold render_item, tab_cell in Hitem.
    destruct (State.tabs st !! i) as [x |] eqn:Hx; [| discriminate Hitem].
    simpl in Hitem. injection Hitem as <-. simpl. rewrite Hx.
    split; [reflexivity |]. split; [reflexivity |].
    split; [reflexivity |]. split; [reflexivity |].
    split; intros [= ->]; reflexivity.
  - intros props. destruct (mount_state props) as (st & -> & Htabs & _).
    exists st. split; [reflexivity |]. simpl.
    intros i x. rewrite Htabs, list_lookup_imap.
    destruct (routes (navigationState props) !! i); [| discriminate].
    intros [= <-]. reflexivity.
  - intros this st Hst.
    unfold animationFinished, bind, getState. simpl. rewrite Hst. simpl.
    eexists. split; [reflexivity |]. simpl.
    intros i x. rewrite list_lookup_imap.
    destruct (State.tabs st !! i); [| discriminate].
    intros [= <-]. reflexivity.
Qed.

(** *** Themes with missing colours *)



End Rendering.

Lemma shifting_labels_witness :
  exists r,
    returned (render (lib := Sample.lib) (animated := Sample.animated)
                (styles := Sample.styles) Sample.shifted) = OK r
    /\ length (items r) = 3%nat.
Proof.
  destruct (shifting_labels (lib := Sample.lib) (animated := Sample.animated)
              (styles := Sample.styles)) as (Hrender & _ & _).
  destruct (Hrender Sample.shifted Sample.mounted_state)
    as (r & Hr & Hlength & _).
  - reflexivity.
  - reflexivity.
  - eexists. vm_compute. reflexivity.
  - eexists. reflexivity.
  - simpl. lia.
  - intros _. eexists. reflexivity.
  - exists r. split; [exact Hr | exact Hlength].
Defined.

(** C6 as stated fails between an index change and the end of its
    animations.  With three tabs in shifting mode, constructed with the
    second tab active and rendered again after the owner has made the third
    one active, the label of the second tab, now inactive, still has
    opacity 1 and scale 1. *)
Lemma shifting_labels_in_transition :
  let this := {| props := Sample.props_of (Bool true) 2 Sample.three false
                            Sample.paper;
                 state := state Sample.shifted |} in
  exists r item,
    state this = Some Sample.mounted_state
    /\ truthy (render_shifting (props this)) = true
    /\ returned (render (lib := Sample.lib) (animated := Sample.animated)
                   (styles := Sample.styles) this) = OK r
    /\ items r !! 1%nat = Some item
    /\ Z.of_nat 1 <> index (navigationState (props this))
    /\ eval Sample.mounted_state (opacity (activeLabel item)) = Some 1%Q
    /\ eval Sample.mounted_state (scale item) = Some 1%Q.
Proof.
  eexists. eexists.
  split; [reflexivity |]. split; [reflexivity |].
  split; [vm_compute; reflexivity |].
  split; [reflexivity |].
  split; [discriminate |].
  split; reflexivity.
Qed.



End BottomNavigationFacts.

(** * Properties of the accordion colours *)

Module ListAccordionFacts.
Import ListAccordion.

Section Colours.
Context {lib : ColorLib}.

(** C3.  Not expanded, a version-3 theme gives [colors.onSurface] as title
    and title-text colour, [colors.onSurfaceVariant] as description colour
    and [colors.onSurface] at alpha 0.12 as ripple colour; a version-2 theme
    gives [colors.text] at alpha 0.87 as title and title-text colour,
    [colors.text] at alpha 0.54 as description colour, and that title colour
    at alpha 0.12 as ripple colour. *)
Theorem accordion_colors_collapsed (args : Args) :
  truthy (isExpanded args) = false ->
  let cs := colors (theme args) in
  (isV3 (theme args) = true ->
   forall ripple : string,
     color_alpha (onSurface cs) (12 # 100) = OK ripple ->
     getAccordionColors args
     = OK {| titleColor := onSurface cs;
             descriptionColor := onSurfaceVariant cs;
             titleTextColor := onSurface cs;
             rippleColor := ripple |})
  /\ (isV3 (theme args) = false ->
      forall title description ripple : string,
        color_alpha (text cs) (87 # 100) = OK title ->
        color_alpha (text cs) (54 # 100) = OK description ->
        color_alpha (Some title) (12 # 100) = OK ripple ->
        getAccordionColors args
        = OK {| titleColor := Some title;
                descriptionColor := Some description;
                titleTextColor := Some title;
                rippleColor := ripple |}).
Proof.
  intros Hcollapsed cs. unfold getAccordionColors. fold cs.
  rewrite Hcollapsed. split.
  - intros -> ripple Hripple. simpl. rewrite Hripple. reflexivity.
  - intros -> title description ripple Htitle Hdescription Hripple.
    rewrite Htitle, Hdescription. simpl. rewrite Hripple. reflexivity.
Qed.

(** C4.  Expanded, whatever the theme version, the title-text colour is
    [colors.primary] and the ripple colour is [colors.primary] at alpha
    0.12; the title and description colours are those of the theme
    version. *)
Theorem accordion_colors_expanded (args : Args) (ripple : string) :
  truthy (isExpanded args) = true ->
  let cs := colors (theme args) in
  (isV3 (theme args) = false ->
   is_OK (color_alpha (text cs) (87 # 100))
   /\ is_OK (color_alpha (text cs) (54 # 100))) ->
  color_alpha (primary cs) (12 # 100) = OK ripple ->
  exists r,
    getAccordionColors args = OK r
    /\ titleTextColor r = primary cs
    /\ rippleColor r = ripple.
Proof.
  intros Hexpanded cs Hv2 Hripple. unfold getAccordionColors. fold cs.
  rewrite Hexpanded.
  destruct (isV3 (theme args)).
  - simpl. rewrite Hripple. eexists. repeat split; reflexivity.
  - destruct (Hv2 eq_refl) as [[title ->] [description ->]].
    simpl. rewrite Hripple. eexists. repeat split; reflexivity.
Qed.

End Colours.

Lemma accordion_colors_collapsed_witness :
  getAccordionColors (lib := Sample.lib)
    {| theme := Sample.v3; isExpanded := Undefined |}
  = OK {| titleColor := Some "rgba(28, 27, 31, 1)";
          descriptionColor := Some "rgba(73, 69, 79, 1)";
          titleTextColor := Some "rgba(28, 27, 31, 1)";
          rippleColor := "rgba(28, 27, 31, 0.12)" |}
  /\ getAccordionColors (lib := Sample.lib)
       {| theme := Sample.v2; isExpanded := Undefined |}
     = OK {| titleColor := Some "rgba(0, 0, 0, 0.87)";
             descriptionColor := Some "rgba(0, 0, 0, 0.54)";
             titleTextColor := Some "rgba(0, 0, 0, 0.87)";
             rippleColor := "rgba(0, 0, 0, 0.12)" |}.
Proof.
  split.
  - destruct (accordion_colors_collapsed (lib := Sample.lib)
                {| theme := Sample.v3; isExpanded := Undefined |} eq_refl)
      as [Hv3 _].
    apply (Hv3 eq_refl). reflexivity.
  - destruct (accordion_colors_collapsed (lib := Sample.lib)
                {| theme := Sample.v2; isExpanded := Undefined |} eq_refl)
      as [_ Hv2].
    apply (Hv2 eq_refl); reflexivity.
Defined.

Lemma accordion_colors_expanded_witness :
  exists r,
    getAccordionColors (lib := Sample.lib)
      {| theme := Sample.v3; isExpanded := Bool true |} = OK r
    /\ titleTextColor r = Some "rgba(103, 80, 164, 1)"
    /\ rippleColor r = "rgba(103, 80, 164, 0.12)".
Proof.
  apply (accordion_colors_expanded (lib := Sample.lib)
           {| theme := Sample.v3; isExpanded := Bool true |}
           "rgba(103, 80, 164, 0.12)").
  - reflexivity.
  - intros Hv2. discriminate Hv2.
  - reflexivity.
Defined.

End ListAccordionFacts.

(** * Further properties of BottomNavigation *)

Module BottomNavigationMore.
Import BottomNavigation.

(** *** The shift calculation *)

Lemma calculateShift_value (a c n : Z) (this : Instance) :
  returned (_calculateShift a c n this)
  = OK (if decide (a < c) then 20
        else if decide (a > c) then -20
        else if decide (c = 0) then 10
        else if decide (c = n - 1) then -10 else 0).
Proof.
  unfold _calculateShift, MIN_SHIFT_AMOUNT.
  repeat case_decide; try reflexivity; lia.
Qed.

(** X1.  For a fixed active tab and number of items the shift never
    decreases from one tab to a later one: shifted tabs keep their order. *)
Theorem calculateShift_monotone (this : Instance) (a c1 c2 n : Z) :
  c1 <= c2 ->
  exists v1 v2,
    returned (_calculateShift a c1 n this) = OK v1
    /\ returned (_calculateShift a c2 n this) = OK v2
    /\ v1 <= v2.
Proof.
  intros Hle. rewrite !calculateShift_value.
  eexists. eexists. split; [reflexivity |]. split; [reflexivity |].
  repeat case_decide; lia.
Qed.

Lemma calculateShift_monotone_witness :
  exists v1 v2,
    returned (_calculateShift 1 0 3 Sample.mounted) = OK v1
    /\ returned (_calculateShift 1 2 3 Sample.mounted) = OK v2
    /\ v1 <= v2.
Proof.
  apply (calculateShift_monotone Sample.mounted 1 0 2 3). lia.
Defined.

(** X2.  Except for a bar with a single item, the shift is mirror
    symmetric: counting both indices from the other end of the bar negates
    it. *)
Theorem calculateShift_mirror (this : Instance) (a c n : Z) :
  n <> 1 ->
  exists v,
    returned (_calculateShift a c n this) = OK v
    /\ returned (_calculateShift (n - 1 - a) (n - 1 - c) n this) = OK (- v).
Proof.
  intros Hn. rewrite !calculateShift_value.
  eexists. split; [reflexivity |]. f_equal.
  repeat case_decide; lia.
Qed.

Lemma calculateShift_mirror_witness :
  exists v,
    returned (_calculateShift 0 0 4 Sample.mounted) = OK v
    /\ returned (_calculateShift 3 3 4 Sample.mounted) = OK (- v).
Proof.
  apply (calculateShift_mirror Sample.mounted 0 0 4). lia.
Defined.

(** X18.  [_calculateShift] reads and writes nothing of the instance it is
    called on: against any two instances, mounted or not, it returns the
    same value, and it leaves the instance as it found it and makes no
    call. *)
Theorem calculateShift_frame (a c n : Z) (this this' : Instance) :
  returned (_calculateShift a c n this)
  = returned (_calculateShift a c n this')
  /\ this_after (_calculateShift a c n this) = this
  /\ calls (_calculateShift a c n this) = [].
Proof.
  destruct (BottomNavigationFacts.calculateShift_run a c n) as [v Hv].
  rewrite (Hv this), (Hv this'). simpl. repeat split.
Qed.

(** *** The constructor *)

Lemma mapM_calculateShift_values (active n : Z) (l : list nat) :
  exists vs,
    (forall this : Instance,
        mapM (fun i => _calculateShift active (Z.of_nat i) n) l this
        = {| returned := OK vs; this_after := this; calls := [] |})
    /\ length vs = length l
    /\ forall (i k : nat),
         l !! i = Some k ->
         exists v, vs !! i = Some v
                   /\ forall this : Instance,
                        returned (_calculateShift active (Z.of_nat k) n this)
                        = OK v.
Proof.
  induction l as [| k l (vs & Hrun & Hlen & Hval)].
  - exists []. split; [reflexivity |]. split; [reflexivity |].
    intros i k Hi. discriminate Hi.
  - destruct (BottomNavigationFacts.calculateShift_run active (Z.of_nat k) n)
      as [v Hv].
    exists (v :: vs). split; [| split].
    + intros this. simpl. unfold bind. rewrite Hv. simpl.
      rewrite Hrun. reflexivity.
    + simpl. congruence.
    + intros [| i] k' Hi; simpl in Hi.
      * injection Hi as <-. exists v. split; [reflexivity |].
        intros this. rewrite Hv. reflexivity.
      * exact (Hval i k' Hi).
Qed.

(** The state the constructor assigns, cell by cell. *)
Lemma mount_run (props : Props) :
  let nav := navigationState props in
  exists vs,
    mount props
    = {| returned := OK tt;
         this_after :=
           {| props := props;
              state := Some {|
                State.tabs :=
                  imap (fun i _ => if decide (Z.of_nat i = index nav)
                                   then 1%Q else 0%Q) (routes nav);
                State.shifts := inject_Z <$> vs;
                State.index := inject_Z (index nav);
                State.ripple := MIN_RIPPLE_SCALE;
                State.touch := MIN_RIPPLE_SCALE;
                State.layout :=
                  {| height := 0; width := 0; measured := false |};
                State.previous := 0 |} |};
         calls := [] |}
    /\ length vs = length (routes nav)
    /\ forall i : nat,
         (i < length (routes nav))%nat ->
         exists v, vs !! i = Some v
                   /\ forall this : Instance,
                        returned (_calculateShift (index nav) (Z.of_nat i)
                                    (Z.of_nat (length (routes nav))) this)
                        = OK v.
Proof.
  intros nav.
  destruct (mapM_calculateShift_values (index nav)
              (Z.of_nat (length (routes nav))) (seq 0 (length (routes nav))))
    as (vs & Hrun & Hlen & Hval).
  exists vs. split; [| split].
  - unfold mount, constructor, bind, getProps. simpl. fold nav.
    rewrite Hrun. reflexivity.
  - rewrite Hlen, length_seq. reflexivity.
  - intros i Hi. apply (Hval i i). apply lookup_seq. lia.
Qed.

(** X3.  The constructor returns normally, calls nothing, keeps the props
    and gives the state one [tabs] cell and one [shifts] cell per route. *)
Theorem mount_cells (props : Props) :
  returned (mount props) = OK tt
  /\ calls (mount props) = []
  /\ BottomNavigation.props (this_after (mount props)) = props
  /\ cells_per_route (this_after (mount props)).
Proof.
  destruct (mount_run props) as (vs & -> & Hlen & _). simpl.
  repeat split. eexists. split; [reflexivity |]. simpl. split.
  - apply length_imap.
  - rewrite length_fmap. exact Hlen.
Qed.

Lemma active_cells_from (active : Z) (rs : list Route) (k : nat) :
  length (filter (fun x : Q => Qeq_bool x 1 = true)
            (imap (fun i _ => if decide (Z.of_nat (k + i) = active)
                              then 1%Q else 0%Q) rs))
  = if decide (Z.of_nat k <= active < Z.of_nat (k + length rs)) then 1%nat
    else 0%nat.
Proof.
  revert k. induction rs as [| r rs IH]; intros k.
  - simpl. rewrite decide_False by lia. reflexivity.
  - rewrite imap_cons.
    rewrite (imap_ext _ (fun i _ => if decide (Z.of_nat (S k + i) = active)
                                    then 1%Q else 0%Q) rs)
      by (intros i x _; simpl; repeat case_decide; try reflexivity; lia).
    destruct (decide (Z.of_nat (k + 0) = active)) as [He | Hne].
    + rewrite filter_cons_True by reflexivity.
      cbn [length]. rewrite (IH (S k)).
      rewrite decide_False by lia. rewrite decide_True by lia.
      reflexivity.
    + rewrite filter_cons_False by (simpl; discriminate).
      rewrite (IH (S k)). cbn [length].
      repeat case_decide; try reflexivity; lia.
Qed.

(** X4.  After the constructor every [tabs] cell is 0 or 1, and the number
    of cells at 1 is one when [navigationState.index] is the index of a
    route and zero otherwise: at most one tab is active. *)
Theorem mount_one_active (props : Props) :
  let nav := navigationState props in
  exists st,
    state (this_after (mount props)) = Some st
    /\ (forall x : Q, x ∈ State.tabs st -> x = 0%Q \/ x = 1%Q)
    /\ length (filter (fun x : Q => Qeq_bool x 1 = true) (State.tabs st))
       = if decide (0 <= index nav < Z.of_nat (length (routes nav)))
         then 1%nat else 0%nat.
Proof.
  intros nav. destruct (mount_run props) as (vs & -> & _ & _). simpl.
  eexists. split; [reflexivity |]. simpl. fold nav. split.
  - intros x Hx. apply elem_of_lookup_imap in Hx as (i & r & -> & _).
    case_decide; auto.
  - exact (active_cells_from (index nav) (routes nav) 0).
Qed.

(** X5.  After the constructor the [shifts] cells are in ascending order:
    a tab is never shifted further left than a tab before it. *)
Theorem mount_shifts_ascending (props : Props) (i j : nat) :
  (i <= j)%nat ->
  (j < length (routes (navigationState props)))%nat ->
  exists st x y,
    state (this_after (mount props)) = Some st
    /\ State.shifts st !! i = Some x
    /\ State.shifts st !! j = Some y
    /\ (x <= y)%Q.
Proof.
  intros Hij Hj.
  destruct (mount_run props) as (vs & -> & _ & Hval). simpl.
  destruct (Hval i ltac:(lia)) as (x & Hx & Hvx).
  destruct (Hval j Hj) as (y & Hy & Hvy).
  eexists.
  exists (inject_Z x), (inject_Z y).
  split; [reflexivity |]. simpl.
  rewrite !list_lookup_fmap, Hx, Hy.
  split; [reflexivity |]. split; [reflexivity |].
  rewrite <- Zle_Qle.
  specialize (Hvx Sample.mounted). specialize (Hvy Sample.mounted).
  rewrite calculateShift_value in Hvx, Hvy.
  injection Hvx as <-. injection Hvy as <-.
  repeat case_decide; lia.
Qed.

Lemma mount_shifts_ascending_witness :
  exists st x y,
    state (this_after
             (mount (Sample.props_of Undefined 1 Sample.three true
                       Sample.paper))) = Some st
    /\ State.shifts st !! 0%nat = Some x
    /\ State.shifts st !! 2%nat = Some y
    /\ (x <= y)%Q.
Proof.
  apply (mount_shifts_ascending
           (Sample.props_of Undefined 1 Sample.three true Sample.paper) 0 2).
  - lia.
  - simpl. lia.
Defined.

(** *** Tab presses *)

Lemma bind_run {A B} (m : Method A) (k : A -> Method B) (this : Instance)
  (a : A) :
  returned (m this) = OK a ->
  bind m k this
  = {| returned := returned (k a (this_after (m this)));
       this_after := this_after (k a (this_after (m this)));
       calls := calls (m this) ++ calls (k a (this_after (m this))) |}.
Proof.
  intros Hret. unfold bind. rewrite Hret. reflexivity.
Qed.

Lemma handleTabPress_after (this : Instance) (st : State.t) (i : Z) :
  state this = Some st ->
  this_after (_handleTabPress i this)
  = {| props := props this;
       state := Some {|
         State.tabs := State.tabs st;
         State.shifts := State.shifts st;
         State.index := State.index st;
         State.ripple := State.ripple st;
         State.touch := MIN_RIPPLE_SCALE;
         State.layout := State.layout st;
         State.previous := State.previous st |} |}.
Proof.
  intros Hst. unfold _handleTabPress, bind, getProps, getState. simpl.
  rewrite Hst. simpl.
  destruct (bool_decide _); destruct (onTabPress (props this)); reflexivity.
Qed.

(** X6.  The component keeps no memory of a press.  A press changes
    nothing of the instance but the [touch] cell, which it resets, so a
    second press finds the props of the first: the calls of two presses in a
    row are those of the first followed by those the second would make on
    its own, and the instance afterwards is the one a single press leaves. *)
Theorem handleTabPress_twice (this : Instance) (st : State.t) (i j : Z) :
  state this = Some st ->
  let twice := (_handleTabPress i ;;; _handleTabPress j) this in
  returned twice = OK tt
  /\ calls twice
     = calls (_handleTabPress i this) ++ calls (_handleTabPress j this)
  /\ this_after twice = this_after (_handleTabPress j this)
  /\ props (this_after twice) = props this
  /\ exists st',
       state (this_after twice) = Some st'
       /\ State.touch st' = MIN_RIPPLE_SCALE
       /\ State.tabs st' = State.tabs st
       /\ State.shifts st' = State.shifts st
       /\ State.index st' = State.index st
       /\ State.ripple st' = State.ripple st
       /\ State.layout st' = State.layout st
       /\ State.previous st' = State.previous st.
Proof.
  intros Hst twice. subst twice.
  destruct (BottomNavigationFacts.handleTabPress_run this st i Hst)
    as [Hret Hcalls].
  rewrite (bind_run _ _ this tt Hret).
  pose proof (handleTabPress_after this st i Hst) as Hafter.
  set (this1 := this_after (_handleTabPress i this)) in *.
  assert (state this1 = Some {|
            State.tabs := State.tabs st;
            State.shifts := State.shifts st;
            State.index := State.index st;
            State.ripple := State.ripple st;
            State.touch := MIN_RIPPLE_SCALE;
            State.layout := State.layout st;
            State.previous := State.previous st |}) as Hst1
    by (rewrite Hafter; reflexivity).
  destruct (BottomNavigationFacts.handleTabPress_run this1 _ j Hst1)
    as [Hret1 Hcalls1].
  destruct (BottomNavigationFacts.handleTabPress_run this st j Hst)
    as [_ Hcallsj].
  pose proof (handleTabPress_after this1 _ j Hst1) as Hafter1.
  pose proof (handleTabPress_after this st j Hst) as Hafterj.
  assert (props this1 = props this) as Hprops by (rewrite Hafter; reflexivity).
  cbn [returned calls this_after]. split; [exact Hret1 |]. split.
  - f_equal. rewrite Hcalls1, Hcallsj, Hprops. reflexivity.
  - rewrite Hafter1, Hafterj, Hprops. simpl.
    split; [reflexivity |]. split; [reflexivity |].
    eexists. split; [reflexivity |]. simpl. repeat split; reflexivity.
Qed.

Lemma handleTabPress_twice_witness :
  calls ((_handleTabPress 2 ;;; _handleTabPress 2) Sample.mounted)
  = calls (_handleTabPress 2 Sample.mounted)
    ++ calls (_handleTabPress 2 Sample.mounted).
Proof.
  destruct (handleTabPress_twice Sample.mounted Sample.mounted_state 2 2
              eq_refl) as (_ & Hcalls & _).
  exact Hcalls.
Defined.

(** X7.  A press checks no bounds.  For an index that is not the index of
    a route, [onIndexChange] is still called with it unless it equals
    [navigationState.index], and [onTabPress], when provided, receives
    [undefined] as its route. *)
Theorem handleTabPress_out_of_range (this : Instance) (st : State.t) (i : Z) :
  state this = Some st ->
  let nav := navigationState (props this) in
  i < 0 \/ Z.of_nat (length (routes nav)) <= i ->
  returned (_handleTabPress i this) = OK tt
  /\ (i <> index nav -> OnIndexChange i ∈ calls (_handleTabPress i this))
  /\ (onTabPress (props this) = true ->
      OnTabPress None (bool_decide (index nav = i))
        ∈ calls (_handleTabPress i this)).
Proof.
  intros Hst nav Hrange.
  destruct (BottomNavigationFacts.handleTabPress_run this st i Hst)
    as [Hret Hcalls].
  fold nav in Hcalls. split; [exact Hret |]. rewrite Hcalls.
  assert (at_index (routes nav) i = None) as ->.
  { unfold at_index. destruct (decide (0 <= i)); [| reflexivity].
    apply lookup_ge_None. lia. }
  split.
  - intros Hne. rewrite decide_True by exact Hne.
    right. left.
  - intros ->. right. apply elem_of_app. right. left.
Qed.

Lemma handleTabPress_out_of_range_witness :
  OnIndexChange 7 ∈ calls (_handleTabPress 7 Sample.mounted)
  /\ OnTabPress None false ∈ calls (_handleTabPress 7 Sample.mounted).
Proof.
  destruct (handleTabPress_out_of_range Sample.mounted Sample.mounted_state 7
              eq_refl) as (_ & Hchange & Hpress).
  - right. simpl. lia.
  - split; [apply Hchange; discriminate | exact (Hpress eq_refl)].
Defined.

(** *** Jumping to a route *)

(** X8.  The index [_jumpTo] hands to [onIndexChange] is [-1] or the index
    of a route, and in the latter case that route has the key asked for. *)
Theorem jumpTo_index_bounds (this : Instance) (k : string) :
  let rs := routes (navigationState (props this)) in
  exists idx : Z,
    calls (_jumpTo k this) = [OnIndexChange idx]
    /\ -1 <= idx < Z.of_nat (length rs)
    /\ (idx = -1 \/ exists r, at_index rs idx = Some r /\ key r = k).
Proof.
  intros rs. unfold _jumpTo, bind, getProps, call, findIndex. simpl.
  fold rs.
  destruct (list_find (fun route => key route = k) rs) as [[i r] |] eqn:Hfind.
  - apply list_find_Some in Hfind as (Hi & Hk & _).
    exists (Z.of_nat i). split; [reflexivity |].
    apply lookup_lt_Some in Hi as Hlt. split; [lia |].
    right. exists r. split; [| exact Hk].
    unfold at_index. rewrite decide_True by lia.
    rewrite Nat2Z.id. exact Hi.
  - exists (-1). split; [reflexivity |]. split; [lia | left; reflexivity].
Qed.

(** X9.  When the keys of the routes are distinct, jumping to the key of
    the route at index [i] calls [onIndexChange] with [i], also when [i] is
    the active index, where a press would call nothing. *)
Theorem jumpTo_route_key (this : Instance) (i : nat) (r : Route) :
  let rs := routes (navigationState (props this)) in
  NoDup (key <$> rs) ->
  rs !! i = Some r ->
  calls (_jumpTo (key r) this) = [OnIndexChange (Z.of_nat i)].
Proof.
  intros rs Hnodup Hi.
  unfold _jumpTo, bind, getProps, call, findIndex. simpl. fold rs.
  assert (list_find (fun route => key route = key r) rs = Some (i, r)) as ->;
    [| reflexivity].
  apply list_find_Some. split; [exact Hi |]. split; [reflexivity |].
  intros j y Hj Hlt Hkey.
  assert (j = i); [| lia].
  apply (NoDup_lookup (key <$> rs) j i (key r) Hnodup);
    rewrite list_lookup_fmap; [rewrite Hj | rewrite Hi]; simpl; congruence.
Qed.

Lemma jumpTo_route_key_witness :
  calls (_jumpTo "albums" Sample.mounted) = [OnIndexChange 1].
Proof.
  apply (jumpTo_route_key Sample.mounted 1 (Sample.route "albums")).
  - change (routes (navigationState (props Sample.mounted)))
      with Sample.three.
    unfold Sample.three. rewrite !fmap_cons, fmap_nil.
    repeat (apply NoDup_cons; split;
            [rewrite ?elem_of_cons, elem_of_nil; unfold not; intros H;
             repeat (destruct H as [H | H]; try discriminate H); exact H |]).
    apply NoDup_nil. exact I.
  - reflexivity.
Defined.

(** *** Lifecycle *)

Lemma callAll_run (es : list event) (this : Instance) :
  callAll es this = {| returned := OK tt; this_after := this; calls := es |}.
Proof.
  induction es as [| e es IH]; [reflexivity |].
  simpl. unfold bind, call. simpl. rewrite IH. reflexivity.
Qed.

Lemma didUpdate_run (prevProps : Props) (this : Instance) (st : State.t)
  (vs : list Z) :
  let nav := navigationState (props this) in
  state this = Some st ->
  index (navigationState prevProps) <> index nav ->
  (forall this' : Instance,
      mapM (fun i => _calculateShift (index nav) (Z.of_nat i)
                       (Z.of_nat (length (routes nav))))
        (seq 0 (length (routes nav))) this'
      = {| returned := OK vs; this_after := this'; calls := [] |}) ->
  componentDidUpdate prevProps this
  = {| returned := OK tt;
       this_after :=
         {| props := props this;
            state := Some {|
              State.tabs := State.tabs st;
              State.shifts := State.shifts st;
              State.index := State.index st;
              State.ripple := MIN_RIPPLE_SCALE;
              State.touch := State.touch st;
              State.layout := State.layout st;
              State.previous := State.previous st |} |};
       calls :=
         TimingStart Animated.Ripple 1 400
         :: imap (fun i _ =>
                    TimingStart (Animated.Tab i)
                      (if decide (Z.of_nat i = index nav) then 1%Q else 0%Q)
                      200) (routes nav)
         ++ imap (fun i toValue =>
                    TimingStart (Animated.Shift i) (inject_Z toValue) 200)
              vs |}.
Proof.
  intros nav Hst Hne Hrun.
  unfold componentDidUpdate, bind, getProps, getState. simpl. fold nav.
  rewrite decide_False by exact Hne.
  rewrite Hst. simpl. rewrite Hrun. simpl.
  rewrite !callAll_run. simpl. rewrite ?app_nil_r. reflexivity.
Qed.

Lemma handled_step (this this' : Instance) :
  handled this this' ->
  props this' = props this
  /\ forall st,
       state this = Some st ->
       exists st',
         state this' = Some st'
         /\ length (State.tabs st') = length (State.tabs st)
         /\ length (State.shifts st') = length (State.shifts st).
Proof.
  intros [i this0 | k this0 | h w this0 | nextProps this0 | prevProps this0
          | idx this0].
  - split.
    + unfold _handleTabPress, bind, getProps, getState. simpl.
      destruct (state this0); simpl; [| reflexivity].
      destruct (bool_decide _); destruct (onTabPress (props this0));
        reflexivity.
    + intros st Hst. rewrite (handleTabPress_after this0 st i Hst).
      eexists. split; [reflexivity |]. split; reflexivity.
  - split; [reflexivity |]. intros st Hst. exists st.
    split; [exact Hst |]. split; reflexivity.
  - unfold _handleLayout, bind, getState. simpl.
    destruct (state this0) as [st0 |]; simpl.
    + split; [reflexivity |]. intros st [= <-].
      eexists. split; [reflexivity |]. split; reflexivity.
    + split; [reflexivity |]. intros st Hst. discriminate Hst.
  - unfold componentWillReceiveProps, bind, getProps, getState. simpl.
    destruct (decide _); simpl.
    + destruct (state this0) as [st0 |]; simpl.
      * split; [reflexivity |]. intros st [= <-].
        eexists. split; [reflexivity |]. split; reflexivity.
      * split; [reflexivity |]. intros st Hst. discriminate Hst.
    + split; [reflexivity |]. intros st Hst. exists st.
      split; [exact Hst |]. split; reflexivity.
  - destruct (decide (index (navigationState prevProps)
                      = index (navigationState (props this0)))) as [He | Hne].
    + unfold componentDidUpdate, bind, getProps. simpl.
      rewrite decide_True by exact He. simpl.
      split; [reflexivity |]. intros st Hst. exists st.
      split; [exact Hst |]. split; reflexivity.
    + destruct (state this0) as [st0 |] eqn:Hst0.
      * destruct (mapM_calculateShift_values
                    (index (navigationState (props this0)))
                    (Z.of_nat (length (routes (navigationState (props this0)))))
                    (seq 0 (length (routes (navigationState (props this0))))))
          as (vs & Hrun & _).
        rewrite (didUpdate_run prevProps this0 st0 vs Hst0 Hne Hrun). simpl.
        split; [reflexivity |]. intros st [= <-].
        eexists. split; [reflexivity |]. split; reflexivity.
      * unfold componentDidUpdate, bind, getProps, getState. simpl.
        rewrite decide_False by exact Hne. rewrite Hst0. simpl.
        split; [reflexivity |]. intros st Hst. discriminate Hst.
  - unfold animationFinished, bind, getState. simpl.
    destruct (state this0) as [st0 |]; simpl.
    + split; [reflexivity |]. intros st [= <-].
      eexists. split; [reflexivity |]. simpl.
      split; [apply length_imap | reflexivity].
    + split; [reflexivity |]. intros st Hst. discriminate Hst.
Qed.

(** X10.  No handler and no lifecycle method replaces the props or changes
    the number of cells: an instance that has one [tabs] cell and one
    [shifts] cell per route still has them after any sequence of presses,
    jumps, layouts, updates and finished animations. *)
Theorem handled_keeps_cells (this this' : Instance) :
  rtc handled this this' ->
  cells_per_route this ->
  props this' = props this /\ cells_per_route this'.
Proof.
  induction 1 as [this | this mid this' Hstep _ IH].
  - intros Hcells. split; [reflexivity | exact Hcells].
  - intros (st & Hst & Htabs & Hshifts).
    destruct (handled_step this mid Hstep) as [Hprops Hstate].
    destruct (Hstate st Hst) as (st' & Hst' & Htabs' & Hshifts').
    destruct IH as [Hprops' Hcells'].
    + exists st'. rewrite Hprops. split; [exact Hst' |]. split; congruence.
    + split; [congruence | exact Hcells'].
Qed.

Lemma handled_keeps_cells_witness :
  cells_per_route
    (this_after
       (animationFinished 2 (this_after (_handleTabPress 2 Sample.mounted)))).
Proof.
  apply (handled_keeps_cells Sample.mounted).
  - eapply rtc_l; [apply handled_tabPress |].
    eapply rtc_l; [apply handled_animationFinished |].
    apply rtc_refl.
  - exists Sample.mounted_state. repeat split.
Defined.



(** X12.  When the animations of an update are over and the state has one
    [tabs] cell per route, the callback leaves the [tabs], [index] and
    [ripple] cells as the constructor would assign them for the present
    props, and the other cells as they were. *)
Theorem animationFinished_rest (this : Instance) (st : State.t) :
  let nav := navigationState (props this) in
  state this = Some st ->
  length (State.tabs st) = length (routes nav) ->
  exists fresh st',
    state (this_after (mount (props this))) = Some fresh
    /\ returned (animationFinished (index nav) this) = OK tt
    /\ state (this_after (animationFinished (index nav) this)) = Some st'
    /\ State.tabs st' = State.tabs fresh
    /\ State.index st' = State.index fresh
    /\ State.ripple st' = State.ripple fresh
    /\ State.shifts st' = State.shifts st
    /\ State.touch st' = State.touch st
    /\ State.layout st' = State.layout st.
Proof.
  intros nav Hst Hlen.
  destruct (mount_run (props this)) as (vs & -> & _ & _).
  unfold animationFinished, bind, getState. simpl. rewrite Hst. simpl.
  eexists. eexists. split; [reflexivity |]. split; [reflexivity |].
  split; [reflexivity |]. simpl. fold nav.
  split; [| repeat split; reflexivity].
  apply list_eq. intros i. rewrite !list_lookup_imap.
  destruct (decide (i < length (routes nav))%nat) as [Hlt | Hge].
  - destruct (lookup_lt_is_Some_2 (State.tabs st) i ltac:(lia)) as [x ->].
    destruct (lookup_lt_is_Some_2 (routes nav) i Hlt) as [r ->].
    reflexivity.
  - rewrite (lookup_ge_None_2 (State.tabs st) i) by lia.
    rewrite (lookup_ge_None_2 (routes nav) i) by lia.
    reflexivity.
Qed.

Lemma animationFinished_rest_witness :
  exists st',
    state (this_after (animationFinished 1 Sample.mounted)) = Some st'
    /\ State.tabs st' = [0; 1; 0]%Q.
Proof.
  destruct (animationFinished_rest Sample.mounted Sample.mounted_state
              eq_refl eq_refl)
    as (fresh & st' & Hfresh & _ & Hst' & Htabs & _).
  exists st'. split; [exact Hst' |].
  rewrite Htabs.
  change (state Sample.mounted = Some fresh) in Hfresh.
  injection Hfresh as <-. reflexivity.
Defined.

(** *** When render returns *)

Section Rendering.
Context {lib : ColorLib} {animated : AnimatedLib} {styles : StyleColors}.

Lemma render_item_cell (shifting : bool) (colors : Palette) (st : State.t)
  (i : nat) (route : Route) :
  is_OK (render_item shifting colors st i route)
  <-> is_Some (State.tabs st !! i).
Proof.
  unfold render_item, tab_cell. split.
  - intros [item Hitem].
    destruct (State.tabs st !! i); [eexists; reflexivity |].
    discriminate Hitem.
  - intros [x ->]. simpl. eexists. reflexivity.
Qed.

Lemma render_body_steps (props : Props) (st : State.t) (r : Rendered) :
  let nav := navigationState props in
  let shifting := truthy (render_shifting props) in
  render_body props st = OK r ->
  exists cs,
    colors (theme props) = Some cs
    /\ render_colors props = OK (palette r)
    /\ contentBackgroundColor r = background cs
    /\ pointerEvents r = (if measured (State.layout st) then "auto" else "none")
    /\ rmap (fun '(i, route) => render_scene shifting nav st i route)
         (imap pair (routes nav)) = OK (scenes r)
    /\ rmap (fun '(i, route) => render_item shifting (palette r) st i route)
         (imap pair (routes nav)) = OK (items r)
    /\ (shifting = true ->
        is_OK (call_getColor props (at_index (routes nav) (index nav)))).
Proof.
  intros nav shifting Hr. unfold render_body in Hr.
  fold nav shifting in Hr.
  destruct (render_colors props) as [p |]; [| discriminate Hr].
  simpl in Hr.
  destruct (colors (theme props)) as [cs |]; [| discriminate Hr].
  simpl in Hr.
  destruct (rmap _ _) as [scs |] eqn:Hscenes in Hr; [| discriminate Hr].
  simpl in Hr.
  destruct shifting eqn:Hshifting.
  - destruct (call_getColor props _) as [c |] eqn:Hc in Hr;
      [| discriminate Hr].
    simpl in Hr.
    destruct (rmap _ (imap pair (routes nav))) as [its |] eqn:Hitems in Hr;
      [| discriminate Hr].
    simpl in Hr. injection Hr as <-. simpl.
    exists cs. repeat split; try assumption; try reflexivity.
    intros _. eexists. exact Hc.
  - simpl in Hr.
    destruct (rmap _ (imap pair (routes nav))) as [its |] eqn:Hitems in Hr;
      [| discriminate Hr].
    simpl in Hr. injection Hr as <-. simpl.
    exists cs. repeat split; try assumption; try reflexivity.
    intros Hfalse. discriminate Hfalse.
Qed.

Lemma render_body_needs_cells (props : Props) (st : State.t) :
  is_OK (render_body props st) ->
  (length (routes (navigationState props)) <= length (State.tabs st))%nat.
Proof.
  intros [r Hr]. set (nav := navigationState props).
  destruct (render_body_steps props st r Hr)
    as (_ & _ & _ & _ & _ & _ & Hitems & _).
  fold nav in Hitems.
  destruct (decide (length (routes nav) <= length (State.tabs st))%nat)
    as [Hle | Hgt]; [exact Hle | exfalso].
  destruct (lookup_lt_is_Some_2 (routes nav) (length (State.tabs st)))
    as [route Hroute]; [lia |].
  destruct (BottomNavigationFacts.rmap_lookup _ _ _
              (length (State.tabs st))
              (length (State.tabs st), route) Hitems)
    as (item & Hitem & _).
  { rewrite list_lookup_imap, Hroute. reflexivity. }
  assert (is_Some (State.tabs st !! length (State.tabs st))) as Hsome
    by (eapply render_item_cell; eexists; exact Hitem).
  apply lookup_lt_is_Some_1 in Hsome. lia.
Qed.

(** X13.  [render] returns exactly when the colour derivation succeeds,
    the theme has its [colors] object, the state has a [tabs] cell for every
    route and, in shifting mode without a [getColor] prop,
    [navigationState.index] is the index of a route. *)
Theorem render_returns_iff (props : Props) (st : State.t) :
  let nav := navigationState props in
  is_OK (render_body props st)
  <-> is_OK (render_colors props)
      /\ is_Some (colors (theme props))
      /\ (length (routes nav) <= length (State.tabs st))%nat
      /\ (truthy (render_shifting props) = true ->
          getColor props = None ->
          is_Some (at_index (routes nav) (index nav))).
Proof.
  intros nav. split.
  - intros Hok. pose proof (render_body_needs_cells props st Hok) as Hlen.
    destruct Hok as [r Hr].
    destruct (render_body_steps props st r Hr)
      as (cs & Hcs & Hp & _ & _ & _ & _ & Hripple).
    fold nav in Hripple.
    split; [eexists; exact Hp |]. split; [eexists; exact Hcs |].
    split; [exact Hlen |].
    intros Hshifting Hdefault.
    destruct (Hripple Hshifting) as [c Hc].
    unfold call_getColor in Hc. rewrite Hdefault in Hc.
    destruct (at_index (routes nav) (index nav)); [eexists; reflexivity |].
    discriminate Hc.
  - intros ([p Hp] & [cs Hcs] & Hlen & Hindex).
    destruct (BottomNavigationFacts.render_body_returns props st p cs
                Hp Hcs Hlen Hindex) as (r & Hr & _).
    exists r. exact Hr.
Qed.

(** X14.  A bar built for some routes cannot render more of them: with the
    state the constructor assigned and props that have more routes,
    [render] throws. *)
Theorem render_more_routes (props props' : Props) :
  (length (routes (navigationState props))
   < length (routes (navigationState props')))%nat ->
  exists e,
    returned (render {| props := props';
                        state := state (this_after (mount props)) |})
    = Throw e.
Proof.
  intros Hmore.
  destruct (mount_run props) as (vs & -> & _ & _).
  cbn [this_after state].
  rewrite BottomNavigationFacts.render_mounted.
  match goal with |- context [render_body props' ?st0] => set (st := st0) end.
  destruct (render_body props' st) as [r | e] eqn:Hr;
    [exfalso | eexists; reflexivity].
  assert (is_OK (render_body props' st)) as Hok by (eexists; exact Hr).
  apply render_body_needs_cells in Hok as Hlen.
  subst st. simpl in Hlen. rewrite length_imap in Hlen. lia.
Qed.

Lemma handleLayout_after (this : Instance) (st : State.t) (h w : Q) :
  state this = Some st ->
  this_after (_handleLayout h w this)
  = {| props := props this;
       state := Some {|
         State.tabs := State.tabs st;
         State.shifts := State.shifts st;
         State.index := State.index st;
         State.ripple := State.ripple st;
         State.touch := State.touch st;
         State.layout := {| height := h; width := w; measured := true |};
         State.previous := State.previous st |} |}.
Proof.
  intros Hst. unfold _handleLayout, bind, getState. simpl.
  rewrite Hst. reflexivity.
Qed.

Lemma render_body_layout (props : Props) (st : State.t) (l : Layout)
  (r : Rendered) :
  render_body props st = OK r ->
  exists r',
    render_body props {|
      State.tabs := State.tabs st;
      State.shifts := State.shifts st;
      State.index := State.index st;
      State.ripple := State.ripple st;
      State.touch := State.touch st;
      State.layout := l;
      State.previous := State.previous st |} = OK r'
    /\ pointerEvents r' = (if measured l then "auto" else "none")
    /\ palette r' = palette r
    /\ contentBackgroundColor r' = contentBackgroundColor r
    /\ scenes r' = scenes r
    /\ itemsMaxWidth r' = itemsMaxWidth r
    /\ items r' = items r
    /\ (rippleTop (touchRipple r') = rippleTop (touchRipple r)
        /\ rippleHeight (touchRipple r') = rippleHeight (touchRipple r)
        /\ rippleWidth (touchRipple r') = rippleWidth (touchRipple r)
        /\ rippleBorderRadius (touchRipple r')
           = rippleBorderRadius (touchRipple r)
        /\ rippleBackgroundColor (touchRipple r')
           = rippleBackgroundColor (touchRipple r)
        /\ rippleTranslateX (touchRipple r')
           = rippleTranslateX (touchRipple r)
        /\ rippleScale (touchRipple r') = rippleScale (touchRipple r)
        /\ rippleOpacity (touchRipple r') = rippleOpacity (touchRipple r))
    /\ match ripple r, ripple r' with
       | Some rp, Some rp' =>
           rippleBackgroundColor rp' = rippleBackgroundColor rp
           /\ rippleTranslateX rp' = rippleTranslateX rp
           /\ rippleScale rp' = rippleScale rp
           /\ rippleOpacity rp' = rippleOpacity rp
           /\ rippleHeight rp' = Float.Div (Float.Lit (width l)) (Float.Lit 4)
           /\ rippleWidth rp' = Float.Div (Float.Lit (width l)) (Float.Lit 4)
           /\ rippleBorderRadius rp'
              = Float.Div (Float.Lit (width l)) (Float.Lit 2)
       | None, None => True
       | _, _ => False
       end.
Proof.
  unfold render_body, render_scene, render_item, tab_cell, shift_cell.
  cbn [State.tabs State.shifts State.layout].
  destruct (render_colors props) as [p |]; [| discriminate].
  simpl.
  destruct (colors (theme props)) as [cs |]; [| discriminate].
  simpl.
  destruct (rmap _ _) as [scs |]; [| discriminate].
  simpl.
  destruct (truthy (render_shifting props)).
  - destruct (call_getColor props _) as [c |]; [| discriminate].
    simpl.
    destruct (rmap _ _) as [its |]; [| discriminate].
    simpl. intros [= <-]. simpl.
    eexists. split; [reflexivity |]. simpl. repeat split; reflexivity.
  - simpl.
    destruct (rmap _ _) as [its |]; [| discriminate].
    simpl. intros [= <-]. simpl.
    eexists. split; [reflexivity |]. simpl. repeat split; reflexivity.
Qed.

(** X15.  [render] returns ["none"] as [pointerEvents] for the component as
    constructed and, once [_handleLayout] has run, ["auto"], with the same
    colours, scenes and tab items; the ripples keep their colours and
    animated styles, and of their geometry only what is computed from the
    layout changes: the left edge of the touch ripple and the frame of the
    background ripple, which is sized from the measured width. *)
Theorem layout_enables_touches (props : Props) (r : Rendered) (h w : Q) :
  returned (render (this_after (mount props))) = OK r ->
  pointerEvents r = "none"
  /\ exists r',
       returned (render (this_after
                           (_handleLayout h w (this_after (mount props)))))
       = OK r'
       /\ pointerEvents r' = "auto"
       /\ palette r' = palette r
       /\ contentBackgroundColor r' = contentBackgroundColor r
       /\ scenes r' = scenes r
       /\ itemsMaxWidth r' = itemsMaxWidth r
       /\ items r' = items r
       /\ (rippleTop (touchRipple r') = rippleTop (touchRipple r)
           /\ rippleHeight (touchRipple r') = rippleHeight (touchRipple r)
           /\ rippleWidth (touchRipple r') = rippleWidth (touchRipple r)
           /\ rippleBorderRadius (touchRipple r')
              = rippleBorderRadius (touchRipple r)
           /\ rippleBackgroundColor (touchRipple r')
              = rippleBackgroundColor (touchRipple r)
           /\ rippleTranslateX (touchRipple r')
              = rippleTranslateX (touchRipple r)
           /\ rippleScale (touchRipple r') = rippleScale (touchRipple r)
           /\ rippleOpacity (touchRipple r') = rippleOpacity (touchRipple r))
       /\ match ripple r, ripple r' with
          | Some rp, Some rp' =>
              rippleBackgroundColor rp' = rippleBackgroundColor rp
              /\ rippleTranslateX rp' = rippleTranslateX rp
              /\ rippleScale rp' = rippleScale rp
              /\ rippleOpacity rp' = rippleOpacity rp
              /\ rippleHeight rp' = Float.Div (Float.Lit w) (Float.Lit 4)
              /\ rippleWidth rp' = Float.Div (Float.Lit w) (Float.Lit 4)
              /\ rippleBorderRadius rp'
                 = Float.Div (Float.Lit w) (Float.Lit 2)
          | None, None => True
          | _, _ => False
          end.
Proof.
  destruct (mount_run props) as (vs & -> & _ & _). cbn [this_after].
  erewrite handleLayout_after by reflexivity.
  rewrite !BottomNavigationFacts.render_mounted.
  intros Hr.
  destruct (render_body_layout props _
              {| height := h; width := w; measured := true |} r Hr)
    as (r' & Hr' & Hpointer & Hrest).
  split.
  - destruct (render_body_steps props _ r Hr) as (_ & _ & _ & _ & -> & _).
    reflexivity.
  - exists r'. split; [exact Hr' |]. split; [exact Hpointer | exact Hrest].
Qed.

(** X17.  In shifting mode the active and the inactive tint are both the
    text colour, and the background of the bar interpolates over one colour
    per route, in the order of the routes: the route's own colour, or the
    approximate background colour when the route has none. *)
Theorem shifting_background (props : Props) (p : Palette) :
  let rs := routes (navigationState props) in
  truthy (render_shifting props) = true ->
  render_colors props = OK p ->
  activeColor p = Some (textColor p)
  /\ inactiveColor p = textColor p
  /\ exists outputRange,
       barBackgroundColor p
       = Interpolated (imap (fun i _ => Z.of_nat i) rs) outputRange
       /\ length outputRange = length rs
       /\ forall (i : nat) (route : Route),
            rs !! i = Some route ->
            exists c,
              call_getColor props (Some route) = OK c
              /\ outputRange !! i
                 = Some (or_else c (approxBackgroundColor p)).
Proof.
  intros rs Hshifting. unfold render_colors. fold rs. rewrite Hshifting.
  destruct (match barStyle props ≫= backgroundColor with
            | Some c => OK (Some c)
            | None => _
            end) as [approx |]; [| discriminate].
  simpl.
  destruct (rmap _ rs) as [out |] eqn:Hout; [| discriminate].
  simpl.
  destruct (animated_interpolate _ out) as [accepted |]; [| discriminate].
  simpl.
  destruct (color_light approx) as [light |]; [| discriminate].
  simpl.
  destruct (color_alpha _ _) as [touch |]; [| discriminate].
  simpl. intros [= <-]. simpl.
  split; [reflexivity |]. split; [reflexivity |].
  exists out. split; [reflexivity |].
  split; [exact (BottomNavigationFacts.rmap_length _ _ _ Hout) |].
  intros i route Hi.
  destruct (BottomNavigationFacts.rmap_lookup _ _ _ i route Hout Hi)
    as (b & Hb & Hlookup).
  destruct (call_getColor props (Some route)) as [c |]; [| discriminate Hb].
  simpl in Hb. injection Hb as <-.
  exists c. split; [reflexivity | exact Hlookup].
Qed.

End Rendering.

(** X16.  Outside shifting mode the active and the inactive layer of an
    item cross-fade: whatever the value of the tab's cell, the item is
    rendered with both layers, and the opacities of the active and of the
    inactive label, like those of the two icons, add up to 1. *)
Theorem labels_cross_fade (colors : Palette) (st : State.t) (i : nat)
  (route : Route) (x : Q) :
  State.tabs st !! i = Some x ->
  exists item icon label a b,
    render_item false colors st i route = OK item
    /\ inactiveIcon item = Some icon
    /\ inactiveLabel item = Some label
    /\ eval st (opacity (activeLabel item)) = Some a
    /\ eval st (opacity label) = Some b
    /\ eval st (opacity (activeIcon item)) = Some a
    /\ eval st (opacity icon) = Some b
    /\ (a + b == 1)%Q.
Proof.
  intros Hx. unfold render_item, tab_cell. rewrite Hx. simpl.
  eexists. eexists. eexists. exists x.
  exists (Animated.segment x 0 1 1 0).
  split; [reflexivity |]. split; [reflexivity |]. split; [reflexivity |].
  simpl. rewrite Hx. simpl.
  split; [reflexivity |]. split; [reflexivity |].
  split; [reflexivity |]. split; [reflexivity |].
  unfold Animated.segment. simpl. rewrite Qred_correct. field.
Qed.

Lemma labels_cross_fade_witness :
  exists item icon label a b,
    render_item false
      {| approxBackgroundColor := None; barBackgroundColor := Plain None;
         isDark := false; textColor := "#000000"; activeColor := None;
         inactiveColor := "rgba(0, 0, 0, 0.5)";
         touchColor := "rgba(0, 0, 0, 0.12)" |}
      Sample.mounted_state 0 (Sample.route "music") = OK item
    /\ inactiveIcon item = Some icon
    /\ inactiveLabel item = Some label
    /\ eval Sample.mounted_state (opacity (activeLabel item)) = Some a
    /\ eval Sample.mounted_state (opacity label) = Some b
    /\ eval Sample.mounted_state (opacity (activeIcon item)) = Some a
    /\ eval Sample.mounted_state (opacity icon) = Some b
    /\ (a + b == 1)%Q.
Proof.
  apply (labels_cross_fade _ Sample.mounted_state 0 (Sample.route "music")
           0%Q).
  reflexivity.
Defined.

Lemma render_returns_iff_witness :
  is_OK (render_body (lib := Sample.lib) (animated := Sample.animated)
      (styles := Sample.styles)
           (Sample.props_of Undefined 1 Sample.three true Sample.paper)
           Sample.mounted_state).
Proof.
  apply (render_returns_iff (lib := Sample.lib) (animated := Sample.animated)
      (styles := Sample.styles)).
  split; [eexists; vm_compute; reflexivity |].
  split; [eexists; reflexivity |].
  split; [simpl; lia |].
  intros Hshifting. discriminate Hshifting.
Defined.

Lemma layout_enables_touches_witness :
  exists r',
    returned (render (lib := Sample.lib) (animated := Sample.animated)
      (styles := Sample.styles)
                (this_after (_handleLayout 56 360 Sample.mounted))) = OK r'
    /\ pointerEvents r' = "auto".
Proof.
  destruct (returned (render (lib := Sample.lib) (animated := Sample.animated)
      (styles := Sample.styles)
                        Sample.mounted)) as [r | e] eqn:Hr;
    [| vm_compute in Hr; discriminate Hr].
  destruct (layout_enables_touches (lib := Sample.lib)
              (animated := Sample.animated) (styles := Sample.styles)
              (Sample.props_of Undefined 1 Sample.three true Sample.paper)
              r 56 360 Hr) as (_ & r' & Hr' & Hauto & _).
  exists r'. split; [exact Hr' | exact Hauto].
Defined.

Lemma shifting_background_witness :
  exists p,
    render_colors (lib := Sample.lib) (animated := Sample.animated)
      (styles := Sample.styles)
      (Sample.props_of (Bool true) 1 Sample.three true Sample.paper) = OK p
    /\ activeColor p = Some (textColor p)
    /\ inactiveColor p = textColor p.
Proof.
  destruct (render_colors (lib := Sample.lib) (animated := Sample.animated)
      (styles := Sample.styles)
              (Sample.props_of (Bool true) 1 Sample.three true Sample.paper))
    as [p | e] eqn:Hp; [| vm_compute in Hp; discriminate Hp].
  destruct (shifting_background (lib := Sample.lib) (animated := Sample.animated)
      (styles := Sample.styles)
              (Sample.props_of (Bool true) 1 Sample.three true Sample.paper)
              p eq_refl Hp) as (Hactive & Hinactive & _).
  exists p. split; [reflexivity |]. split; [exact Hactive | exact Hinactive].
Defined.

Lemma render_more_routes_witness :
  exists e,
    returned (render (lib := Sample.lib) (animated := Sample.animated)
      (styles := Sample.styles)
                {| props := Sample.props_of Undefined 1 Sample.four true
                              Sample.paper;
                   state := state Sample.mounted |})
    = Throw e.
Proof.
  apply (render_more_routes (lib := Sample.lib) (animated := Sample.animated)
      (styles := Sample.styles)
           (Sample.props_of Undefined 1 Sample.three true Sample.paper)
           (Sample.props_of Undefined 1 Sample.four true Sample.paper)).
  simpl. lia.
Defined.

End BottomNavigationMore.
